(** * CTFd application bootstrap: template resolution, loader chain,
      request path rewriting and the version / reverse-proxy gates

    A shallow embedding of [CTFd/__init__.py].  Python objects that are
    mutated in place (the template cache, compiled templates, the
    configuration store, override dictionaries) live in an explicit
    [State]; code that can raise returns a [result]. *)

From Stdlib Require Import ZArith Ascii String List Bool.
From stdpp Require Import base option gmap strings list pretty.

Set Warnings "-register-all".

Open Scope string_scope.
Open Scope Z_scope.

(** ** Python values and exceptions *)

(** The Python values that reach this module: configuration values read
    through [utils.get_config] / [app.config.get] and values produced by
    template expressions. *)
Inductive pyval : Type :=
| PNone
| PBool (b : bool)
| PInt (z : Z)
| PStr (s : string)
| PIntTuple (l : list Z).

(** Truth value testing ([if v:], [not v], [v and ...]). *)
Definition truthy (v : pyval) : bool :=
  match v with
  | PNone => false
  | PBool b => b
  | PInt z => negb (z =? 0)
  | PStr s => negb (String.eqb s "")
  | PIntTuple l => match l with [] => false | _ :: _ => true end
  end.

Fixpoint join_with (sep : string) (l : list string) : string :=
  match l with
  | [] => ""
  | [x] => x
  | x :: rest => x +:+ sep +:+ join_with sep rest
  end.

(** [str(v)]. *)
Definition py_str (v : pyval) : string :=
  match v with
  | PNone => "None"
  | PBool true => "True"
  | PBool false => "False"
  | PInt z => pretty z
  | PStr s => s
  | PIntTuple [] => "()"
  | PIntTuple [z] => "(" +:+ pretty z +:+ ",)"
  | PIntTuple l => "(" +:+ join_with ", " (map pretty l) +:+ ")"
  end.

Definition isinstance_str (v : pyval) : bool :=
  match v with PStr _ => true | _ => false end.

Inductive exn_class : Type :=
| TypeError
| ValueError
| TemplateNotFound
| OSError
| NameError
| AttributeError.

Definition class_name (c : exn_class) : string :=
  match c with
  | TypeError => "TypeError"
  | ValueError => "ValueError"
  | TemplateNotFound => "TemplateNotFound"
  | OSError => "OSError"
  | NameError => "NameError"
  | AttributeError => "AttributeError"
  end.

(** A raised exception: its class and its first argument (the message,
    or the template name for [TemplateNotFound]). *)
Record exn : Type := Exn { exn_cls : exn_class; exn_arg : string }.

Inductive result (A : Type) : Type :=
| Return (a : A)
| Raise (e : exn).
Arguments Return {A} a.
Arguments Raise {A} e.

Definition is_TemplateNotFound (e : exn) : bool :=
  match exn_cls e with TemplateNotFound => true | _ => false end.

(** ** String helpers of the Python runtime *)

(** [name.startswith(p)] is [String.prefix p name]. *)
Definition startswith (s p : string) : bool := String.prefix p s.

(** [s.split(sep)] for a one-character separator: always at least one
    piece. *)
Fixpoint split_char (sep : ascii) (s : string) : list string :=
  match s with
  | EmptyString => [""]
  | String c rest =>
      if Ascii.eqb c sep then "" :: split_char sep rest
      else match split_char sep rest with
           | [] => [String c ""]
           | p :: ps => String c p :: ps
           end
  end.

(** [s.split(sep, 1)]: [None] when [sep] does not occur (Python then
    yields a single piece and unpacking into two names fails). *)
Fixpoint split_once (sep : ascii) (s : string) : option (string * string) :=
  match s with
  | EmptyString => None
  | String c rest =>
      if Ascii.eqb c sep then Some ("", rest)
      else match split_once sep rest with
           | Some (a, b) => Some (String c a, b)
           | None => None
           end
  end.

Definition digit_val (c : ascii) : option Z :=
  let n := nat_of_ascii c in
  if ((48 <=? n) && (n <=? 57))%nat then Some (Z.of_nat n - 48) else None.

(** Longest prefix of ASCII digits, as a number, with the rest; [None]
    when the string does not start with a digit ([\d+] under
    [re.ASCII]). *)
Fixpoint digits_go (acc : Z) (s : string) : Z * string :=
  match s with
  | EmptyString => (acc, "")
  | String c rest =>
      match digit_val c with
      | Some d => digits_go (10 * acc + d) rest
      | None => (acc, s)
      end
  end.

Definition take_digits (s : string) : option (Z * string) :=
  match s with
  | EmptyString => None
  | String c rest =>
      match digit_val c with
      | Some d => Some (digits_go d rest)
      | None => None
      end
  end.

(** Whitespace skipped by [int()] around a literal.  A character of a
    string stands for the code point of the same number (0 to 255).
    [int()] leaves the code points below 127 as they are and then skips
    the C whitespace, tab to carriage return (9 to 13) and the space
    (32); the separators 28 to 31 are not skipped.  Above 127 it first
    replaces the Unicode spaces, which in this range are NEL (133) and
    the no-break space (160), by a space; any other such code point is
    replaced by a question mark and makes the literal malformed. *)
Definition is_py_space (c : ascii) : bool :=
  let n := nat_of_ascii c in
  (((9 <=? n) && (n <=? 13)) || (n =? 32) || (n =? 133) || (n =? 160))%nat.

Fixpoint lstrip (s : string) : string :=
  match s with
  | EmptyString => ""
  | String c rest => if is_py_space c then lstrip rest else s
  end.

Fixpoint all_space (s : string) : bool :=
  match s with
  | EmptyString => true
  | String c rest => is_py_space c && all_space rest
  end.

(** Digits of a decimal literal after its first digit: single
    underscores may separate digits, trailing whitespace is allowed. *)
Fixpoint int_digits (acc : Z) (s : string) : option Z :=
  match s with
  | EmptyString => Some acc
  | String c rest =>
      match digit_val c with
      | Some d => int_digits (10 * acc + d) rest
      | None =>
          if Ascii.eqb c "_" then
            match rest with
            | String c' rest' =>
                match digit_val c' with
                | Some d => int_digits (10 * acc + d) rest'
                | None => None
                end
            | EmptyString => None
            end
          else if all_space s then Some acc else None
      end
  end.

Definition int_unsigned (s : string) : option Z :=
  match s with
  | String c rest =>
      match digit_val c with
      | Some d => int_digits d rest
      | None => None
      end
  | EmptyString => None
  end.

(** [int(s)] for a string argument, base 10.  Messages of exceptions
    raised by the interpreter or by libraries are not recorded: their
    [exn_arg] is left empty. *)
Definition py_int (s : string) : result Z :=
  let r :=
    match lstrip s with
    | String "+" rest => int_unsigned rest
    | String "-" rest => Z.opp <$> int_unsigned rest
    | t => int_unsigned t
    end in
  match r with
  | Some z => Return z
  | None => Raise (Exn ValueError "")
  end.

(** ** [distutils.version.StrictVersion] *)

Record StrictVersion : Type := {
  sv_version : Z * Z * Z;
  sv_prerelease : option (ascii * Z)
}.

(** [$] without [re.MULTILINE]: the end of the string, or just before a
    final newline. *)
Definition at_end (s : string) : bool :=
  match s with
  | EmptyString => true
  | String c EmptyString => Ascii.eqb c "010"
  | _ => false
  end.

(** The tail [([ab](\d+))?$] of the version pattern. *)
Definition parse_prerelease (s : string) : option (option (ascii * Z)) :=
  if at_end s then Some None
  else match s with
       | String c rest =>
           if Ascii.eqb c "a" || Ascii.eqb c "b" then
             match take_digits rest with
             | Some (n, rest') => if at_end rest' then Some (Some (c, n)) else None
             | None => None
             end
           else None
       | EmptyString => None
       end.

(** [StrictVersion.parse]: the pattern
    [^(\d+) \. (\d+) (\. (\d+))? ([ab](\d+))?$]; a missing patch level
    is 0. *)
Definition StrictVersion_parse (s : string) : option StrictVersion :=
  match take_digits s with
  | Some (major, String "." r1) =>
      match take_digits r1 with
      | Some (minor, r2) =>
          match r2 with
          | String "." r3 =>
              match take_digits r3 with
              | Some (patch, r4) =>
                  pre ← parse_prerelease r4;
                  Some {| sv_version := (major, minor, patch); sv_prerelease := pre |}
              | None => None
              end
          | _ =>
              pre ← parse_prerelease r2;
              Some {| sv_version := (major, minor, 0); sv_prerelease := pre |}
          end
      | None => None
      end
  | _ => None
  end.

(** [StrictVersion(v)] as [create_app] calls it, on a truthy [v]: a
    string is parsed, anything else fails in [re.match]. *)
Definition StrictVersion_new (v : pyval) : result StrictVersion :=
  match v with
  | PStr s =>
      match StrictVersion_parse s with
      | Some sv => Return sv
      | None => Raise (Exn ValueError "")
      end
  | _ => Raise (Exn TypeError "")
  end.

Definition tuple3_eqb (a b : Z * Z * Z) : bool :=
  let '(a1, a2, a3) := a in
  let '(b1, b2, b3) := b in
  (a1 =? b1) && (a2 =? b2) && (a3 =? b3).

(** Lexicographic [<] on version tuples. *)
Definition tuple3_ltb (a b : Z * Z * Z) : bool :=
  let '(a1, a2, a3) := a in
  let '(b1, b2, b3) := b in
  (a1 <? b1) || ((a1 =? b1) && ((a2 <? b2) || ((a2 =? b2) && (a3 <? b3)))).

Definition prerelease_eqb (p q : ascii * Z) : bool :=
  Ascii.eqb p.1 q.1 && (p.2 =? q.2).

Definition prerelease_ltb (p q : ascii * Z) : bool :=
  (nat_of_ascii p.1 <? nat_of_ascii q.1)%nat
  || (Ascii.eqb p.1 q.1 && (p.2 <? q.2)).

(** [StrictVersion._cmp]. *)
Definition StrictVersion_cmp (self other : StrictVersion) : Z :=
  if negb (tuple3_eqb (sv_version self) (sv_version other)) then
    if tuple3_ltb (sv_version self) (sv_version other) then -1 else 1
  else
    match sv_prerelease self, sv_prerelease other with
    | None, None => 0
    | Some _, None => -1
    | None, Some _ => 1
    | Some p, Some q =>
        if prerelease_eqb p q then 0
        else if prerelease_ltb p q then -1 else 1
    end.

(** [self < other]. *)
Definition StrictVersion_lt (self other : StrictVersion) : bool :=
  StrictVersion_cmp self other <? 0.

(** ** Error monad for code that only raises *)

Global Instance result_ret : MRet result := fun _ a => Return a.
Global Instance result_bind : MBind result := fun _ _ f m =>
  match m with
  | Return a => f a
  | Raise e => Raise e
  end.

(** A list comprehension [[f(i) for i in l]] whose body may raise: the
    first failure aborts it. *)
Fixpoint map_result {A B : Type} (f : A → result B) (l : list A) : result (list B) :=
  match l with
  | [] => Return []
  | x :: rest =>
      match f x with
      | Raise e => Raise e
      | Return y =>
          match map_result f rest with
          | Raise e => Raise e
          | Return ys => Return (y :: ys)
          end
      end
  end.

(** ** Template loaders ([jinja2.loaders]) *)

(** Loader objects.  A [DictLoader] keeps a reference to its mapping (the
    address of a dictionary in the store), not a copy of it. *)
Inductive loader : Type :=
| DictLoader (mapping : nat)
| ThemeLoader
| FileSystemLoader (searchpath : string)
| PrefixLoader (mapping : list (string * loader))
| ChoiceLoader (loaders : list loader).

(** A loader together with its object identity; [weakref.ref(loader)]
    compares by that identity. *)
Record LoaderObj : Type := {
  loader_id : nat;
  loader_chain : loader
}.

(** A compiled [jinja2.Template]: its source, its [globals] dictionary
    and what its [is_up_to_date] property currently answers. *)
Record Template : Type := {
  tpl_source : string;
  tpl_globals : gmap string pyval;
  tpl_uptodate : bool
}.

(** The template environment ([self] in [_load_template]). *)
Record Environment : Type := {
  env_loader : option LoaderObj;
  env_cache : option (gmap (nat * string) nat);
  env_auto_reload : bool;
  env_globals : gmap string pyval;
  env_finalize : pyval → pyval
}.

(** Calls made to collaborators, in order. *)
Inductive call : Type :=
| CallLoad (loader : nat) (name : string)
| CallRunUpgrade.

(** The mutable store: the environment, the configuration read by
    [utils.get_config], the dictionaries referenced by [DictLoader]s,
    the heap of compiled templates and the log of collaborator calls. *)
Record State : Type := {
  st_env : Environment;
  st_config : gmap string pyval;
  st_dicts : gmap nat (gmap string string);
  st_templates : gmap nat Template;
  st_trace : list call
}.

Definition set_env (e : Environment) (st : State) : State :=
  {| st_env := e; st_config := st_config st; st_dicts := st_dicts st;
     st_templates := st_templates st; st_trace := st_trace st |}.

Definition set_config_store (c : gmap string pyval) (st : State) : State :=
  {| st_env := st_env st; st_config := c; st_dicts := st_dicts st;
     st_templates := st_templates st; st_trace := st_trace st |}.

Definition set_templates (t : gmap nat Template) (st : State) : State :=
  {| st_env := st_env st; st_config := st_config st; st_dicts := st_dicts st;
     st_templates := t; st_trace := st_trace st |}.

Definition log_call (c : call) (st : State) : State :=
  {| st_env := st_env st; st_config := st_config st; st_dicts := st_dicts st;
     st_templates := st_templates st; st_trace := st_trace st ++ [c] |}.

Definition set_cache (c : gmap (nat * string) nat) (e : Environment) : Environment :=
  {| env_loader := env_loader e; env_cache := Some c;
     env_auto_reload := env_auto_reload e; env_globals := env_globals e;
     env_finalize := env_finalize e |}.

(** Modelled from the spec: [utils.get_config] and [utils.set_config]
    are imported from [CTFd.utils], which is not part of the sources; the
    spec describes a process-wide key/value configuration store.  A key
    that was never set reads as [None]. *)
Definition get_config (key : string) (st : State) : pyval :=
  default PNone (st_config st !! key).

Definition set_config (key : string) (v : pyval) (st : State) : State :=
  set_config_store (<[key := v]> (st_config st)) st.

(** ** State-and-exception monad *)

Definition M (A : Type) : Type := State → result A * State.

Definition ret {A : Type} (a : A) : M A := fun st => (Return a, st).
Definition raise {A : Type} (e : exn) : M A := fun st => (Raise e, st).
Definition bind {A B : Type} (m : M A) (k : A → M B) : M B :=
  fun st =>
    match m st with
    | (Return a, st') => k a st'
    | (Raise e, st') => (Raise e, st')
    end.
Definition gets {A : Type} (f : State → A) : M A := fun st => (Return (f st), st).
Definition modify (f : State → State) : M unit := fun st => (Return tt, f st).

Notation "'let!' x ':=' m 'in' k" := (bind m (fun x => k))
  (at level 10, x pattern, m at level 100, k at level 200).

Global Instance pyval_eq_dec : EqDecision pyval.
Proof. solve_decision. Defined.

(** [posixpath.join(a, b)] for a relative second component. *)
Fixpoint ends_with_slash (s : string) : bool :=
  match s with
  | EmptyString => false
  | String c EmptyString => Ascii.eqb c "/"
  | String _ rest => ends_with_slash rest
  end.

Definition path_join (a b : string) : string :=
  if startswith b "/" then b
  else if String.eqb a "" || ends_with_slash a then a +:+ b
  else a +:+ "/" +:+ b.

(** ** The application module *)

Definition __version__ : string := "3.7.5".
Definition __channel__ : string := "oss".

(** WSGI callables: the Flask entry point, possibly wrapped by
    [werkzeug]'s [ProxyFix] with its five trusted hop counts. *)
Inductive wsgi : Type :=
| FlaskWsgiApp
| ProxyFix (app : wsgi) (x_for x_proto x_host x_port x_prefix : Z).

(** [ProxyFix(app, *args)]: positional arguments fill [x_for], [x_proto],
    [x_host], [x_port], [x_prefix] (defaults 1, 1, 0, 0, 0); more than
    five is a [TypeError]. *)
Definition ProxyFix_new (app : wsgi) (args : list Z) : result wsgi :=
  match args with
  | [] => Return (ProxyFix app 1 1 0 0 0)
  | [a] => Return (ProxyFix app a 1 0 0 0)
  | [a; b] => Return (ProxyFix app a b 0 0 0)
  | [a; b; c] => Return (ProxyFix app a b c 0 0)
  | [a; b; c; d] => Return (ProxyFix app a b c d 0)
  | [a; b; c; d; e] => Return (ProxyFix app a b c d e)
  | _ => Raise (Exn TypeError "")
  end.

(** The attributes of the Flask application object that this module
    reads or writes.  [app_overridden_templates] is the attribute
    [overridden_templates]: [None] when the object has no such
    attribute, and otherwise the address of the dictionary in
    [st_dicts].  [app_global_jinja_loader] is what
    [app.create_global_jinja_loader()] returns. *)
Record App : Type := {
  app_root_path : string;
  app_config : gmap string pyval;
  app_overridden_templates : option nat;
  app_jinja_loader : option loader;
  app_global_jinja_loader : LoaderObj;
  app_wsgi_app : wsgi
}.

Definition set_jinja_loader (l : loader) (app : App) : App :=
  {| app_root_path := app_root_path app; app_config := app_config app;
     app_overridden_templates := app_overridden_templates app;
     app_jinja_loader := Some l;
     app_global_jinja_loader := app_global_jinja_loader app;
     app_wsgi_app := app_wsgi_app app |}.

Definition set_wsgi_app (w : wsgi) (app : App) : App :=
  {| app_root_path := app_root_path app; app_config := app_config app;
     app_overridden_templates := app_overridden_templates app;
     app_jinja_loader := app_jinja_loader app;
     app_global_jinja_loader := app_global_jinja_loader app;
     app_wsgi_app := w |}.

(** *** [CTFdRequest] *)

(** A request as [werkzeug]'s constructor leaves it. *)
Record Request : Type := {
  script_root : string;
  path : string
}.

(** [CTFdRequest.__init__], after the call to the parent constructor
    has produced [self]:
    [self.path = self.script_root + self.path]. *)
Definition CTFdRequest_init (self : Request) : Request :=
  {| script_root := script_root self;
     path := script_root self +:+ path self |}.

(** *** [SandboxedBaseEnvironment.__init__] *)

(** The keyword options of the environment constructor that matter
    here.  For [loader] and [finalize] the outer [option] says whether
    the key is among the options at all, the inner one is the value
    given ([None] is a possible value of both); [opt_cache_size] and
    [opt_auto_reload] carry the values jinja2 ends up with (their
    defaults are 400 and [True]). *)
Record Options : Type := {
  opt_loader : option (option LoaderObj);
  opt_finalize : option (option (pyval → pyval));
  opt_cache_size : Z;
  opt_auto_reload : bool;
  opt_globals : gmap string pyval
}.

(** The default [finalize]: the lambda that returns [x] unless [x] is
    [None], and the empty string then. *)
Definition default_finalize (x : pyval) : pyval :=
  match x with
  | PNone => PStr ""
  | _ => x
  end.

(** [jinja2.utils.create_cache]: size 0 disables the cache.  The LRU
    bound of a positive size is not modelled: the cache is a finite map. *)
Definition create_cache (size : Z) : option (gmap (nat * string) nat) :=
  if size =? 0 then None else Some ∅.

Definition SandboxedBaseEnvironment_init (app : App) (options : Options) : Environment :=
  let loader :=
    match opt_loader options with
    | None => Some (app_global_jinja_loader app)
    | Some given => given
    end in
  let finalize :=
    match opt_finalize options with
    | None => default_finalize
    | Some None => fun x => x
    | Some (Some f) => f
    end in
  {| env_loader := loader;
     env_cache := create_cache (opt_cache_size options);
     env_auto_reload := opt_auto_reload options;
     env_globals := opt_globals options;
     env_finalize := finalize |}.

(** How the compiled template emits the value of an expression:
    [str(finalize(value))]. *)
Definition render_value (env : Environment) (v : pyval) : string :=
  py_str (env_finalize env v).

(** *** Names bound in the module *)

(** The names bound in the namespace of the module when the body of
    [create_app] runs: the attributes every package module has, the
    imports of lines 1-31, the two assignments of lines 33-34, the
    classes and the function of lines 37-88, and the sub-packages that
    the imports of lines 16-31, 93 and 110 load, which Python also binds
    in the namespace of their package. *)
Definition module_globals : list string :=
  [ "__name__"; "__doc__"; "__package__"; "__loader__"; "__spec__";
    "__path__"; "__file__"; "__cached__"; "__builtins__";
    "datetime"; "os"; "sys"; "time"; "weakref"; "StrictVersion"; "jinja2";
    "Flask"; "Request"; "render_template"; "Babel"; "upgrade";
    "SandboxedEnvironment"; "ProxyFix"; "safe_join"; "utils";
    "ADMIN_THEME"; "DEFAULT_THEME"; "init_plugins"; "sha256";
    "init_cli"; "init_events"; "init_logs"; "init_request_processors";
    "init_template_filters"; "init_template_globals";
    "create_database"; "migrations"; "stamp_latest_revision";
    "CachingSessionInterface"; "update_check"; "get_locale";
    "__version__"; "__channel__";
    "CTFdRequest"; "CTFdFlask"; "SandboxedBaseEnvironment"; "create_app";
    "constants"; "plugins"; "cache"; "models" ].

(** Evaluating a name that [create_app] does not assign: it is looked up
    among the names of the module (and then among the builtins, which
    hold none of the names looked up here); a name that is not bound
    raises [NameError]. *)
Definition load_global (name : string) : result unit :=
  if existsb (String.eqb name) module_globals
  then Return tt
  else Raise (Exn NameError "").

(** [app.overridden_templates]: [AttributeError] when the attribute is
    not set. *)
Definition getattr_overridden_templates (app : App) : result nat :=
  match app_overridden_templates app with
  | Some addr => Return addr
  | None => Raise (Exn AttributeError "")
  end.

Section Collaborators.

(** What loader objects resolve on disk: the lookup of a loader of the
    class [ThemeLoader] (it reads the configuration and the disk) and of
    jinja2's [FileSystemLoader] (a search path and a name). *)
Variable ThemeLoader_get_source : gmap string pyval → string → result string.
Variable FileSystemLoader_get_source : string → string → result string.

(** [loader.get_source(name)].
    - [DictLoader]: the current content of the referenced dictionary;
    - [PrefixLoader]: [name.split("/", 1)] selects the sub-loader by its
      prefix, a [TemplateNotFound] of the sub-loader is raised again under
      the full name;
    - [ChoiceLoader]: the sub-loaders in order, skipping those that raise
      [TemplateNotFound]; any other exception propagates. *)
Fixpoint get_source (config : gmap string pyval)
    (dicts : gmap nat (gmap string string))
    (l : loader) (name : string) {struct l} : result string :=
  match l with
  | DictLoader addr =>
      match (default (∅ : gmap string string) (dicts !! addr)) !! name with
      | Some source => Return source
      | None => Raise (Exn TemplateNotFound name)
      end
  | ThemeLoader => ThemeLoader_get_source config name
  | FileSystemLoader searchpath => FileSystemLoader_get_source searchpath name
  | PrefixLoader mapping =>
      match split_once "/" name with
      | None => Raise (Exn TemplateNotFound name)
      | Some (prefix, local_name) =>
          (fix lookup (m : list (string * loader)) : result string :=
             match m with
             | [] => Raise (Exn TemplateNotFound name)
             | (k, sub) :: m' =>
                 if String.eqb k prefix then
                   match get_source config dicts sub local_name with
                   | Return source => Return source
                   | Raise e =>
                       if is_TemplateNotFound e
                       then Raise (Exn TemplateNotFound name)
                       else Raise e
                   end
                 else lookup m'
             end) mapping
      end
  | ChoiceLoader loaders =>
      (fix choose (ls : list loader) : result string :=
         match ls with
         | [] => Raise (Exn TemplateNotFound name)
         | sub :: ls' =>
             match get_source config dicts sub name with
             | Return source => Return source
             | Raise e => if is_TemplateNotFound e then choose ls' else Raise e
             end
         end) loaders
  end.

(** [environment.make_globals(d)]: the given names shadow the
    environment's globals. *)
Definition make_globals (self : Environment) (d : option (gmap string pyval))
  : gmap string pyval :=
  default ∅ d ∪ env_globals self.

(** [loader.load(environment, name, globals)]: find the source and
    compile it into a new template object (compilation itself is taken
    to succeed).  The call is logged. *)
Definition Loader_load (ld : LoaderObj) (name : string)
    (globals : gmap string pyval) : M nat :=
  let! _ := modify (log_call (CallLoad (loader_id ld) name)) in
  let! st := gets id in
  match get_source (st_config st) (st_dicts st) (loader_chain ld) name with
  | Raise e => raise e
  | Return source =>
      let r := fresh (dom (st_templates st)) in
      let t := {| tpl_source := source; tpl_globals := globals;
                  tpl_uptodate := true |} in
      let! _ := modify (set_templates (<[r := t]> (st_templates st))) in
      ret r
  end.

(** *** [SandboxedBaseEnvironment._load_template] *)

(** Lines 66-69: the name under which the template is cached. *)
Definition cache_name (name : string) : M string :=
  if negb (startswith name "admin/") then
    let! theme := gets (fun st => py_str (get_config "ctf_theme" st)) in
    ret (theme +:+ "/" +:+ name)
  else ret name.

(** [template.is_up_to_date] for the template at address [t]. *)
Definition is_up_to_date (t : nat) (st : State) : bool :=
  match st_templates st !! t with
  | Some tpl => tpl_uptodate tpl
  | None => true
  end.

(** Lines 72-76: the cached template that may be returned as it is, if
    any. *)
Definition cache_hit (key : nat * string) (st : State) : option nat :=
  match env_cache (st_env st) with
  | None => None
  | Some cache =>
      match cache !! key with
      | None => None
      | Some template =>
          if negb (env_auto_reload (st_env st)) || is_up_to_date template st
          then Some template
          else None
      end
  end.

(** Truth value of the [globals] argument: [None] and the empty
    dictionary are false. *)
Definition globals_truthy (globals : option (gmap string pyval)) : bool :=
  match globals with
  | None => false
  | Some g => negb (bool_decide (g = ∅))
  end.

(** [template.globals.update(globals)], in place. *)
Definition update_globals (template : nat) (globals : option (gmap string pyval))
    (st : State) : State :=
  set_templates
    (alter (fun tpl => {| tpl_source := tpl_source tpl;
                          tpl_globals := default ∅ globals ∪ tpl_globals tpl;
                          tpl_uptodate := tpl_uptodate tpl |})
           template (st_templates st)) st.

(** Lines 83-84: [self.cache[cache_key] = template] when there is a
    cache. *)
Definition cache_store (key : nat * string) (template : nat) (st : State) : State :=
  match env_cache (st_env st) with
  | None => st
  | Some cache => set_env (set_cache (<[key := template]> cache) (st_env st)) st
  end.

Definition _load_template (name : string) (globals : option (gmap string pyval))
  : M nat :=
  let! self := gets st_env in
  match env_loader self with
  | None => raise (Exn TypeError "no loader for this environment specified")
  | Some ld =>
      let! cache_name := cache_name name in
      let cache_key := (loader_id ld, cache_name) in
      let! hit := gets (cache_hit cache_key) in
      match hit with
      | Some template =>
          let! _ := (if globals_truthy globals
                     then modify (update_globals template globals)
                     else ret tt) in
          ret template
      | None =>
          let! template := Loader_load ld name (make_globals self globals) in
          let! _ := modify (cache_store cache_key template) in
          ret template
      end
  end.

(** *** [create_app] *)

(** Lines 103-107: the list of loaders.  Its elements are evaluated in
    order: [app.overridden_templates] is read first (line 104), then the
    name [ThemeLoader] is looked up and called (line 105), then the
    plugin loader is built (line 106). *)
Definition create_app_loaders (app : App) : result (list loader) :=
  overridden ← getattr_overridden_templates app;
  _ ← load_global "ThemeLoader";
  Return
    [ DictLoader overridden;
      ThemeLoader;
      PrefixLoader
        [("plugins", FileSystemLoader (path_join (app_root_path app) "plugins"))] ].

(** Line 108: [app.jinja_loader = jinja2.ChoiceLoader(loaders)]. *)
Definition create_app_jinja_loader (app : App) : result App :=
  loaders ← create_app_loaders app;
  Return (set_jinja_loader (ChoiceLoader loaders) app).

(** Lines 133-136: the reverse-proxy wrapper.  [proxyfix_args] is the
    list of parsed integers for a string and [None] for anything else;
    unpacking [None] with [*] is a [TypeError]. *)
Definition create_app_reverse_proxy (app : App) : result App :=
  let reverse_proxy := default PNone (app_config app !! "REVERSE_PROXY") in
  if truthy reverse_proxy then
    proxyfix_args ←
      match reverse_proxy with
      | PStr s =>
          args ← map_result py_int (split_char "," s);
          Return (Some args)
      | _ => Return None
      end;
    match proxyfix_args with
    | None => Raise (Exn TypeError "")
    | Some args =>
        w ← ProxyFix_new (app_wsgi_app app) args;
        Return (set_wsgi_app w app)
    end
  else Return app.

Definition lift_result {A : Type} (r : result A) : M A :=
  fun st => (r, st).

(** Line 140, [run_upgrade()]: the name is looked up, and what it is
    bound to would then be called (the call is logged). *)
Definition call_run_upgrade : M unit :=
  let! _ := lift_result (load_global "run_upgrade") in
  modify (log_call CallRunUpgrade).

(** Lines 138-142: the version gate. *)
Definition create_app_version_check : M unit :=
  let! version := gets (get_config "ctf_version") in
  let! older :=
    (if truthy version then
       let! stored := lift_result (StrictVersion_new version) in
       let! running := lift_result (StrictVersion_new (PStr __version__)) in
       ret (StrictVersion_lt stored running)
     else ret false) in
  if older then call_run_upgrade
  else if negb (truthy version)
       then modify (set_config "ctf_version" (PStr __version__))
       else ret tt.

(** Lines 144-145: the default theme. *)
Definition create_app_default_theme : M unit :=
  let! theme := gets (get_config "ctf_theme") in
  if negb (truthy theme)
  then modify (set_config "ctf_theme" (PStr "core-beta"))
  else ret tt.

End Collaborators.

(** *** The request lifecycle *)

(** What this module does on behalf of a request once the request object
    exists: resolving templates.  The request object is not an argument
    of [_load_template]; a step threads it next to the store. *)
Inductive lifecycle_op : Type :=
| OpLoadTemplate (name : string) (globals : option (gmap string pyval)).

Section Lifecycle.

Variable ThemeLoader_get_source : gmap string pyval → string → result string.
Variable FileSystemLoader_get_source : string → string → result string.

Definition lifecycle_step (op : lifecycle_op) (rs : Request * State)
  : Request * State :=
  match op with
  | OpLoadTemplate name globals =>
      (rs.1,
       (_load_template ThemeLoader_get_source FileSystemLoader_get_source
          name globals rs.2).2)
  end.

Definition lifecycle_run (ops : list lifecycle_op) (rs : Request * State)
  : Request * State :=
  fold_left (fun acc op => lifecycle_step op acc) ops rs.

End Lifecycle.

(** Number of [run_upgrade()] calls in a log. *)
Definition is_run_upgrade (c : call) : bool :=
  match c with
  | CallRunUpgrade => true
  | CallLoad _ _ => false
  end.

Definition upgrade_calls (tr : list call) : nat :=
  length (List.filter is_run_upgrade tr).

(** ** Concrete collaborators and states for examples *)

(** A disk on which only the theme [core-beta] has templates. *)
Definition example_ThemeLoader (config : gmap string pyval) (name : string)
  : result string :=
  match config !! "ctf_theme" with
  | Some (PStr "core-beta") =>
      if String.eqb name "index.html" then Return "<h1>core-beta index</h1>"
      else if String.eqb name "a.html" then Return "<p>a</p>"
      else Raise (Exn TemplateNotFound name)
  | Some (PStr "pixo") =>
      if String.eqb name "a.html" then Return "<p>pixo a</p>"
      else Raise (Exn TemplateNotFound name)
  | _ => Raise (Exn TemplateNotFound name)
  end.

Definition example_FileSystemLoader (searchpath name : string) : result string :=
  if String.eqb searchpath "/opt/CTFd/plugins" && String.eqb name "flags/form.html"
  then Return "<form></form>"
  else Raise (Exn TemplateNotFound name).

Definition example_app (reverse_proxy : option pyval) : App :=
  {| app_root_path := "/opt/CTFd";
     app_config :=
       match reverse_proxy with
       | Some v => {[ "REVERSE_PROXY" := v ]}
       | None => ∅
       end;
     app_overridden_templates := None;
     app_jinja_loader := None;
     app_global_jinja_loader :=
       {| loader_id := 7%nat; loader_chain := ChoiceLoader [] |};
     app_wsgi_app := FlaskWsgiApp |}.

Definition example_loader : LoaderObj :=
  {| loader_id := 7%nat;
     loader_chain :=
       ChoiceLoader
         [ DictLoader 0%nat; ThemeLoader;
           PrefixLoader [("plugins", FileSystemLoader "/opt/CTFd/plugins")] ] |}.

Definition example_env (loader : option LoaderObj) (auto_reload : bool)
  : Environment :=
  {| env_loader := loader;
     env_cache := Some ∅;
     env_auto_reload := auto_reload;
     env_globals := ∅;
     env_finalize := default_finalize |}.

Definition example_state (env : Environment) (config : gmap string pyval) : State :=
  {| st_env := env;
     st_config := config;
     st_dicts := {[ 0%nat := {[ "index.html" := "<p>hi</p>" ]} ]};
     st_templates := ∅;
     st_trace := [] |}.

(** A store whose cache already holds a compiled [a.html] for the theme
    [core-beta]; the template reports itself out of date. *)
Definition example_template : Template :=
  {| tpl_source := "<p>a</p>";
     tpl_globals := {[ "title" := PStr "CTF" ]};
     tpl_uptodate := false |}.

Definition example_cached_state (auto_reload : bool) : State :=
  {| st_env :=
       {| env_loader := Some example_loader;
          env_cache := Some {[ (7%nat, "core-beta/a.html") := 0%nat ]};
          env_auto_reload := auto_reload;
          env_globals := ∅;
          env_finalize := default_finalize |};
     st_config := {[ "ctf_theme" := PStr "core-beta" ]};
     st_dicts := {[ 0%nat := {[ "index.html" := "<p>hi</p>" ]} ]};
     st_templates := {[ 0%nat := example_template ]};
     st_trace := [] |}.

Definition example_options : Options :=
  {| opt_loader := None; opt_finalize := None; opt_cache_size := 400;
     opt_auto_reload := true; opt_globals := ∅ |}.

Definition example_request : Request :=
  {| script_root := "/ctf"; path := "/challenges" |}.

(** ** The order of strict versions, as a lexicographic key *)

(** A version as six integers: the three numbers, then 1 for a release
    and 0 for a pre-release, then the code of the pre-release letter and
    its number.  [key_lt] is the lexicographic order on such keys. *)
Definition version_key (v : StrictVersion) : Z * Z * Z * (Z * Z * Z) :=
  (sv_version v,
   match sv_prerelease v with
   | None => (1, 0, 0)
   | Some (c, n) => (0, Z.of_nat (nat_of_ascii c), n)
   end).

Definition lex3 (a b : Z * Z * Z) : Prop :=
  let '(a1, a2, a3) := a in
  let '(b1, b2, b3) := b in
  a1 < b1 ∨ (a1 = b1 ∧ (a2 < b2 ∨ (a2 = b2 ∧ a3 < b3))).

Definition key_lt (k1 k2 : Z * Z * Z * (Z * Z * Z)) : Prop :=
  lex3 k1.1 k2.1 ∨ (k1.1 = k2.1 ∧ lex3 k1.2 k2.2).

(** ** Character tests *)

(** [c in s]. *)
Fixpoint has_char (c : ascii) (s : string) : bool :=
  match s with
  | EmptyString => false
  | String d rest => Ascii.eqb d c || has_char c rest
  end.

(** Every character is below 128. *)
Fixpoint is_ascii (s : string) : bool :=
  match s with
  | EmptyString => true
  | String c rest => (nat_of_ascii c <? 128)%nat && is_ascii rest
  end.

(** The string does not go on with a digit. *)
Definition no_leading_digit (s : string) : bool :=
  match s with
  | EmptyString => true
  | String c _ => match digit_val c with Some _ => false | None => true end
  end.

(** ** Well-formed stores *)

(** Every template address held by the cache is live in the heap of
    compiled templates. *)
Definition cache_wf (st : State) : Prop :=
  ∀ c k r, env_cache (st_env st) = Some c → c !! k = Some r →
           is_Some (st_templates st !! r).

(** * Properties *)

(** ** Strings *)

Lemma append_nil_l (s : string) : "" +:+ s = s.
Proof. reflexivity. Qed.

Lemma append_cons (c : ascii) (s1 s2 : string) :
  String c s1 +:+ s2 = String c (s1 +:+ s2).
Proof. reflexivity. Qed.

Lemma length_append (s1 s2 : string) :
  String.length (s1 +:+ s2) = (String.length s1 + String.length s2)%nat.
Proof.
  induction s1 as [|c s1 IH].
  - reflexivity.
  - rewrite append_cons. simpl. now rewrite IH.
Qed.

(** A common suffix can be cancelled. *)
Lemma append_inj_l (s1 s2 r : string) : s1 +:+ r = s2 +:+ r → s1 = s2.
Proof.
  revert s2. induction s1 as [|c s1 IH]; intros [|d s2] H.
  - reflexivity.
  - apply (f_equal String.length) in H.
    rewrite append_nil_l, append_cons in H. simpl in H.
    rewrite length_append in H. lia.
  - apply (f_equal String.length) in H.
    rewrite append_nil_l, append_cons in H. simpl in H.
    rewrite length_append in H. lia.
  - rewrite !append_cons in H. injection H as -> H.
    f_equal. now apply IH.
Qed.

Lemma append_longer (t s : string) : t +:+ "/" +:+ s ≠ s.
Proof.
  intros H. apply (f_equal String.length) in H.
  rewrite !length_append in H. simpl in H. lia.
Qed.

(** ** The cache name *)

Lemma cache_name_eq (name : string) (st : State) :
  cache_name name st =
  (Return (if startswith name "admin/" then name
           else py_str (get_config "ctf_theme" st) +:+ "/" +:+ name), st).
Proof.
  unfold cache_name. destruct (startswith name "admin/"); reflexivity.
Qed.

Lemma get_config_set_config (key : string) (v : pyval) (st : State) :
  get_config key (set_config key v st) = v.
Proof.
  unfold get_config, set_config, set_config_store. simpl.
  now rewrite lookup_insert_eq.
Qed.

(** Different theme names give different cache names for the same
    template, unless the template is an [admin/] one. *)
Lemma cache_name_themes (name t1 t2 : string) (st : State) :
  t1 ≠ t2 →
  (cache_name name (set_config "ctf_theme" (PStr t1) st)).1 =
  (cache_name name (set_config "ctf_theme" (PStr t2) st)).1 →
  startswith name "admin/" = true.
Proof.
  intros Hne. rewrite !cache_name_eq, !get_config_set_config. simpl.
  destruct (startswith name "admin/"); [reflexivity|].
  intros H. injection H as H. apply append_inj_l in H. contradiction.
Qed.

Section Properties.

Variable ThemeLoader_get_source : gmap string pyval → string → result string.
Variable FileSystemLoader_get_source : string → string → result string.

Local Abbreviation load_template :=
  (_load_template ThemeLoader_get_source FileSystemLoader_get_source).
Local Abbreviation source_of :=
  (get_source ThemeLoader_get_source FileSystemLoader_get_source).
Local Abbreviation key_of name st :=
  (if startswith name%string "admin/" then name%string
   else py_str (get_config "ctf_theme" st) +:+ "/" +:+ name%string).

(** ** [_load_template], case by case *)

Lemma load_template_no_loader name globals st :
  env_loader (st_env st) = None →
  load_template name globals st =
  (Raise (Exn TypeError "no loader for this environment specified"), st).
Proof.
  intros H. unfold _load_template, bind, gets, raise. simpl. now rewrite H.
Qed.

Lemma load_template_hit name globals st ld r :
  env_loader (st_env st) = Some ld →
  cache_hit (loader_id ld, key_of name st) st = Some r →
  load_template name globals st =
  (Return r, if globals_truthy globals then update_globals r globals st else st).
Proof.
  intros Hld Hhit. unfold _load_template, bind, gets. simpl. rewrite Hld.
  rewrite cache_name_eq, Hhit.
  destruct (globals_truthy globals); reflexivity.
Qed.

Lemma load_template_miss name globals st ld :
  env_loader (st_env st) = Some ld →
  cache_hit (loader_id ld, key_of name st) st = None →
  load_template name globals st =
  let st1 := log_call (CallLoad (loader_id ld) name) st in
  match source_of (st_config st) (st_dicts st) (loader_chain ld) name with
  | Raise e => (Raise e, st1)
  | Return source =>
      let r := fresh (dom (st_templates st)) in
      let t := {| tpl_source := source;
                  tpl_globals := make_globals (st_env st) globals;
                  tpl_uptodate := true |} in
      (Return r,
       cache_store (loader_id ld, key_of name st) r
         (set_templates (<[r := t]> (st_templates st)) st1))
  end.
Proof.
  intros Hld Hhit. unfold _load_template, bind, gets. simpl. rewrite Hld.
  rewrite cache_name_eq, Hhit.
  unfold Loader_load, bind, modify, gets, raise, ret. simpl.
  destruct (source_of _ _ _ _); reflexivity.
Qed.

Lemma cache_hit_lookup key st r :
  cache_hit key st = Some r →
  ∃ c, env_cache (st_env st) = Some c ∧ c !! key = Some r.
Proof.
  unfold cache_hit. destruct (env_cache (st_env st)) as [c|]; [|discriminate].
  destruct (c !! key) as [r0|] eqn:Hk; [|discriminate].
  destruct (_ || _); [|discriminate].
  intros [= ->]. eauto.
Qed.

(** A successful resolution leaves the template under its cache key and
    touches no other key. *)
Lemma load_template_cache name globals st ld c r st' :
  env_loader (st_env st) = Some ld →
  env_cache (st_env st) = Some c →
  load_template name globals st = (Return r, st') →
  env_loader (st_env st') = Some ld ∧
  ∃ c', env_cache (st_env st') = Some c' ∧
        c' !! (loader_id ld, key_of name st) = Some r ∧
        ∀ k, k ≠ (loader_id ld, key_of name st) → c' !! k = c !! k.
Proof.
  intros Hld Hc Hrun.
  destruct (cache_hit (loader_id ld, key_of name st) st) as [r0|] eqn:Hhit.
  - rewrite (load_template_hit _ _ _ _ _ Hld Hhit) in Hrun.
    injection Hrun as -> <-.
    destruct (cache_hit_lookup _ _ _ Hhit) as (c0 & Hc0 & Hk).
    rewrite Hc in Hc0. injection Hc0 as <-.
    destruct (globals_truthy globals); simpl; (split; [exact Hld|]);
      exists c; auto.
  - rewrite (load_template_miss _ _ _ _ Hld Hhit) in Hrun. simpl in Hrun.
    destruct (source_of _ _ _ _) as [source|e]; [|discriminate].
    injection Hrun as <- <-.
    unfold cache_store. simpl. rewrite Hc. simpl. split; [exact Hld|].
    eexists. split; [reflexivity|]. split.
    + apply lookup_insert_eq.
    + intros k Hk. now apply lookup_insert_ne.
Qed.

Lemma env_set_config key v st : st_env (set_config key v st) = st_env st.
Proof. reflexivity. Qed.

(** ** The cache name follows the active theme *)

(** C1. The cache name is computed from the configuration as it is when
    the template is looked up: the name itself for an [admin/] template,
    and otherwise the theme identifier, a slash and the name.  Under two
    different theme identifiers an [admin/] template therefore has one
    cache name, and any other template has two different ones; resolving
    it under the first theme and then under the second leaves two
    entries in the cache, one per theme. *)
Theorem cache_name_theme_namespacing (name t1 t2 : string) (st : State) :
  t1 ≠ t2 →
  let st1 := set_config "ctf_theme" (PStr t1) st in
  let st2 := set_config "ctf_theme" (PStr t2) st in
  cache_name name st = (Return (key_of name st), st) ∧
  if startswith name "admin/" then
    (cache_name name st1).1 = Return name ∧
    (cache_name name st2).1 = Return name
  else
    (cache_name name st1).1 = Return (t1 +:+ "/" +:+ name) ∧
    (cache_name name st2).1 = Return (t2 +:+ "/" +:+ name) ∧
    t1 +:+ "/" +:+ name ≠ t2 +:+ "/" +:+ name ∧
    ∀ ld c g1 g2 r1 r2 sa sb,
      env_loader (st_env st) = Some ld →
      env_cache (st_env st) = Some c →
      load_template name g1 st1 = (Return r1, sa) →
      load_template name g2 (set_config "ctf_theme" (PStr t2) sa) = (Return r2, sb) →
      ∃ c', env_cache (st_env sb) = Some c' ∧
            c' !! (loader_id ld, t1 +:+ "/" +:+ name) = Some r1 ∧
            c' !! (loader_id ld, t2 +:+ "/" +:+ name) = Some r2.
Proof.
  intros Hne st1 st2. split; [apply cache_name_eq|].
  subst st1 st2. rewrite !cache_name_eq, !get_config_set_config. simpl.
  destruct (startswith name "admin/") eqn:Hadm; [split; reflexivity|].
  assert (Hkeys : t1 +:+ "/" +:+ name ≠ t2 +:+ "/" +:+ name).
  { intros H. apply append_inj_l in H. contradiction. }
  repeat split; [exact Hkeys|].
  intros ld c g1 g2 r1 r2 sa sb Hld Hc Hrun1 Hrun2.
  destruct (load_template_cache name g1 (set_config "ctf_theme" (PStr t1) st)
              ld c r1 sa) as (Hlda & ca & Hca & Hk1 & _);
    [exact Hld | exact Hc | exact Hrun1 |].
  destruct (load_template_cache name g2 (set_config "ctf_theme" (PStr t2) sa)
              ld ca r2 sb) as (_ & cb & Hcb & Hk2 & Hother);
    [rewrite env_set_config; exact Hlda
    |rewrite env_set_config; exact Hca | exact Hrun2 |].
  rewrite Hadm, get_config_set_config in Hk1, Hk2, Hother.
  simpl in Hk1, Hk2, Hother.
  exists cb. split; [exact Hcb|]. split; [|exact Hk2].
  rewrite Hother; [exact Hk1|].
  intros H. apply Hkeys. now injection H.
Qed.

(** ** Cache hits *)

Lemma cache_hit_found key st c r t :
  env_cache (st_env st) = Some c →
  c !! key = Some r →
  st_templates st !! r = Some t →
  cache_hit key st =
  if negb (env_auto_reload (st_env st)) || tpl_uptodate t then Some r else None.
Proof.
  intros Hc Hk Ht. unfold cache_hit, is_up_to_date. now rewrite Hc, Hk, Ht.
Qed.

Lemma fresh_template_unused (st : State) :
  st_templates st !! fresh (dom (st_templates st)) = None.
Proof. apply not_elem_of_dom, is_fresh. Qed.

Lemma update_not_truthy (globals : option (gmap string pyval))
    (old : gmap string pyval) :
  globals_truthy globals = false → default ∅ globals ∪ old = old.
Proof.
  destruct globals as [g|]; simpl.
  - intros H. apply negb_false_iff, bool_decide_eq_true in H. subst g.
    apply (left_id_L ∅ (∪)).
  - intros _. apply (left_id_L ∅ (∪)).
Qed.

(** C2. With a compilation cache that holds a template under the cache
    key, [_load_template] returns that very template object exactly when
    auto-reload is off or the template reports itself up to date; the
    supplied globals are then merged into the template's globals, the
    loader is not called and the cache is left as it is.  Otherwise the
    loader is called with the name, and the template it produces, a new
    object, replaces the cache entry under the same key. *)
Theorem cached_template_reuse name globals st ld c r t :
  env_loader (st_env st) = Some ld →
  env_cache (st_env st) = Some c →
  c !! (loader_id ld, key_of name st) = Some r →
  st_templates st !! r = Some t →
  let key := (loader_id ld, key_of name st) in
  let honoured := negb (env_auto_reload (st_env st)) || tpl_uptodate t in
  let res := (load_template name globals st).1 in
  let st' := (load_template name globals st).2 in
  (res = Return r ↔ honoured = true) ∧
  if honoured then
    res = Return r ∧
    st_templates st' !! r =
      Some {| tpl_source := tpl_source t;
              tpl_globals := default ∅ globals ∪ tpl_globals t;
              tpl_uptodate := tpl_uptodate t |} ∧
    (∀ r', r' ≠ r → st_templates st' !! r' = st_templates st !! r') ∧
    st_env st' = st_env st ∧
    st_trace st' = st_trace st
  else
    st_trace st' = (st_trace st ++ [CallLoad (loader_id ld) name])%list ∧
    match source_of (st_config st) (st_dicts st) (loader_chain ld) name with
    | Return source =>
        ∃ r', res = Return r' ∧ r' ≠ r ∧
              st_templates st !! r' = None ∧
              st_templates st' !! r' =
                Some {| tpl_source := source;
                        tpl_globals := make_globals (st_env st) globals;
                        tpl_uptodate := true |} ∧
              env_cache (st_env st') = Some (<[key := r']> c)
    | Raise e => res = Raise e ∧ env_cache (st_env st') = Some c
    end.
Proof.
  intros Hld Hc Hk Ht key honoured res st'.
  pose proof (cache_hit_found _ _ _ _ _ Hc Hk Ht) as Hhit.
  fold honoured in Hhit. subst res st'.
  destruct honoured.
  - rewrite (load_template_hit _ _ _ _ _ Hld Hhit). simpl.
    split; [tauto|]. split; [reflexivity|].
    destruct (globals_truthy globals) eqn:Hg; simpl.
    + rewrite lookup_alter_eq, Ht. simpl. repeat split.
      intros r' Hr'. now apply lookup_alter_ne.
    + rewrite (update_not_truthy _ _ Hg). rewrite Ht. destruct t. simpl.
      repeat split.
  - rewrite (load_template_miss _ _ _ _ Hld Hhit). simpl.
    pose proof (fresh_template_unused st) as Hfresh.
    destruct (source_of _ _ _ _) as [source|e]; simpl.
    + assert (Hne : fresh (dom (st_templates st)) ≠ r).
      { intros Heq. rewrite Heq in Hfresh. congruence. }
      split.
      * split; [|discriminate]. intros [= Heq]. contradiction.
      * unfold cache_store. simpl. rewrite Hc. simpl.
        split; [reflexivity|]. eexists. split; [reflexivity|].
        split; [exact Hne|]. split; [exact Hfresh|].
        split; [apply lookup_insert_eq | reflexivity].
    + split; [split; discriminate|]. split; [reflexivity|].
      split; [reflexivity | exact Hc].
Qed.

(** ** The loader chain *)

Lemma choice_nil config dicts name :
  source_of config dicts (ChoiceLoader []) name =
  Raise (Exn TemplateNotFound name).
Proof. reflexivity. Qed.

Lemma choice_cons config dicts l ls name :
  source_of config dicts (ChoiceLoader (l :: ls)) name =
  match source_of config dicts l name with
  | Return source => Return source
  | Raise e =>
      if is_TemplateNotFound e
      then source_of config dicts (ChoiceLoader ls) name
      else Raise e
  end.
Proof. simpl. destruct (source_of config dicts l name); reflexivity. Qed.

(** When every loader of a chain reports [TemplateNotFound], so does the
    chain, for the name it was asked. *)
Lemma choice_all_not_found config dicts ls name :
  Forall (fun l => ∃ e, source_of config dicts l name = Raise e ∧
                        is_TemplateNotFound e = true) ls →
  source_of config dicts (ChoiceLoader ls) name =
  Raise (Exn TemplateNotFound name).
Proof.
  induction 1 as [|l ls (e & He & Hnf) _ IH].
  - apply choice_nil.
  - rewrite choice_cons, He, Hnf. exact IH.
Qed.

Lemma split_once_append sep s a b :
  split_once sep s = Some (a, b) → s = a +:+ String sep b.
Proof.
  revert a. induction s as [|c s IH]; intros a; simpl; [discriminate|].
  destruct (Ascii.eqb c sep) eqn:Hc.
  - apply Ascii.eqb_eq in Hc. intros [= <- <-]. now subst.
  - destruct (split_once sep s) as [[a' b']|]; [|discriminate].
    intros [= <- <-]. rewrite append_cons. f_equal. now apply IH.
Qed.

Lemma prefix_single config dicts k sub name :
  source_of config dicts (PrefixLoader [(k, sub)]) name =
  match split_once "/" name with
  | None => Raise (Exn TemplateNotFound name)
  | Some (prefix, local_name) =>
      if String.eqb k prefix then
        match source_of config dicts sub local_name with
        | Return source => Return source
        | Raise e =>
            if is_TemplateNotFound e
            then Raise (Exn TemplateNotFound name)
            else Raise e
        end
      else Raise (Exn TemplateNotFound name)
  end.
Proof.
  cbn [get_source]. destruct (split_once "/" name) as [[prefix local_name]|];
    reflexivity.
Qed.

(** The plugin loader only resolves names that start with [plugins/]. *)
Lemma plugin_loader_prefix config dicts searchpath name source :
  source_of config dicts
    (PrefixLoader [("plugins", FileSystemLoader searchpath)]) name = Return source →
  startswith name "plugins/" = true.
Proof.
  rewrite prefix_single.
  destruct (split_once "/" name) as [[prefix local_name]|] eqn:Hs;
    [|discriminate].
  destruct (String.eqb "plugins" prefix) eqn:Hp; [|discriminate].
  intros _. apply String.eqb_eq in Hp. subst prefix.
  apply split_once_append in Hs. subst name.
  unfold startswith. now destruct local_name.
Qed.

Lemma load_global_unbound (name : string) :
  existsb (String.eqb name) module_globals = false →
  load_global name = Raise (Exn NameError "").
Proof. intros H. unfold load_global. now rewrite H. Qed.

(** C3. [create_app] writes a chain of three loaders, the override
    dictionary, the theme loader and a plugin loader under the prefix
    [plugins], but the list cannot be built: reading
    [app.overridden_templates] raises [AttributeError] on an application
    object without that attribute, which nothing in the module sets, and
    on an object that has it the next element raises [NameError], since
    [ThemeLoader] is not a name of the module.  No chain is returned and
    [app.jinja_loader] is never assigned. *)
Theorem create_app_loaders_raises (app : App) :
  existsb (String.eqb "ThemeLoader") module_globals = false ∧
  create_app_loaders app =
    Raise (Exn match app_overridden_templates app with
               | None => AttributeError
               | Some _ => NameError
               end "") ∧
  create_app_jinja_loader app =
    Raise (Exn match app_overridden_templates app with
               | None => AttributeError
               | Some _ => NameError
               end "").
Proof.
  split; [reflexivity|].
  unfold create_app_jinja_loader, create_app_loaders,
    getattr_overridden_templates.
  destruct (app_overridden_templates app) as [addr|]; split; reflexivity.
Qed.

(** ** Cache misses *)

(** C4. On a cache miss the loader is called once, with the logical name
    as it was given (which is never the theme-prefixed cache name), and
    whatever the loader raises, in particular the [TemplateNotFound] of a
    chain in which no loader resolves the name, is what [_load_template]
    raises; nothing is cached then. *)
Theorem cache_miss_loads_original_name name globals st ld :
  env_loader (st_env st) = Some ld →
  cache_hit (loader_id ld, key_of name st) st = None →
  let res := (load_template name globals st).1 in
  let st' := (load_template name globals st).2 in
  st_trace st' = (st_trace st ++ [CallLoad (loader_id ld) name])%list ∧
  py_str (get_config "ctf_theme" st) +:+ "/" +:+ name ≠ name ∧
  match source_of (st_config st) (st_dicts st) (loader_chain ld) name with
  | Raise e =>
      res = Raise e ∧ st_env st' = st_env st ∧
      st_templates st' = st_templates st
  | Return source =>
      ∃ r, res = Return r ∧
           st_templates st' !! r =
             Some {| tpl_source := source;
                     tpl_globals := make_globals (st_env st) globals;
                     tpl_uptodate := true |}
  end ∧
  ∀ ls, loader_chain ld = ChoiceLoader ls →
        Forall (fun l => ∃ e, source_of (st_config st) (st_dicts st) l name = Raise e ∧
                              is_TemplateNotFound e = true) ls →
        res = Raise (Exn TemplateNotFound name).
Proof.
  intros Hld Hmiss res st'. subst res st'.
  rewrite (load_template_miss _ _ _ _ Hld Hmiss). simpl.
  split; [|split; [apply append_longer|split]].
  - destruct (source_of _ _ _ _); [|reflexivity].
    unfold cache_store. simpl. now destruct (env_cache (st_env st)).
  - destruct (source_of _ _ _ _) as [source|e]; simpl.
    + eexists. split; [reflexivity|].
      unfold cache_store. simpl.
      destruct (env_cache (st_env st)); simpl; apply lookup_insert_eq.
    + repeat split.
  - intros ls Hls Hall. rewrite Hls.
    now rewrite (choice_all_not_found _ _ _ _ Hall).
Qed.

(** ** No loader *)

(** C5, as the code has it.  Without a loader [_load_template] raises a
    [TypeError] whose message is "no loader for this environment
    specified", whatever the name and the globals, and it does so before
    anything else: the store, and with it the cache and the call log, is
    unchanged. *)
Theorem no_loader_raises_type_error name globals st :
  env_loader (st_env st) = None →
  ∃ e, load_template name globals st = (Raise e, st) ∧
       class_name (exn_cls e) = "TypeError" ∧
       exn_arg e = "no loader for this environment specified".
Proof.
  intros H. eexists. split; [apply load_template_no_loader, H|].
  split; reflexivity.
Qed.

(** ** The default theme-less cache name *)

(** C10. For a name outside [admin/] the cache name is always computed,
    whatever the configuration holds; when no theme is configured, so
    that the configuration reads as [None], it is ["None/"] followed by
    the name. *)
Theorem cache_name_without_theme name st :
  startswith name "admin/" = false →
  get_config "ctf_theme" st = PNone →
  cache_name name st = (Return ("None/" +:+ name), st) ∧
  ∀ st', ∃ k, cache_name name st' = (Return k, st').
Proof.
  intros Hadm Hcfg. split.
  - now rewrite cache_name_eq, Hadm, Hcfg.
  - intros st'. eexists. apply cache_name_eq.
Qed.

(** ** The finalize step *)

(** C8. An environment built without a [finalize] option turns [None]
    into the empty string and leaves every other value as it is; an
    expression whose value is [None] is rendered as the empty string,
    not as the text of [None]. *)
Theorem finalize_none_is_empty app options :
  opt_finalize options = None →
  let env := SandboxedBaseEnvironment_init app options in
  env_finalize env PNone = PStr "" ∧
  (∀ v, v ≠ PNone → env_finalize env v = v) ∧
  render_value env PNone = "" ∧
  render_value env PNone ≠ py_str PNone.
Proof.
  intros H env. subst env.
  unfold render_value, SandboxedBaseEnvironment_init. rewrite H. simpl.
  split; [reflexivity|]. split; [|split; [reflexivity|discriminate]].
  intros [] Hv; try reflexivity. contradiction.
Qed.

(** ** The request path *)

Lemma lifecycle_run_request ops (req : Request) (st : State) :
  (lifecycle_run ThemeLoader_get_source FileSystemLoader_get_source
     ops (req, st)).1 = req.
Proof.
  unfold lifecycle_run. revert st.
  induction ops as [|op ops IH]; intros st; [reflexivity|].
  destruct op. simpl. apply IH.
Qed.

(** C9. The constructor sets the path of the request to the script root
    followed by the original path, keeping the script root; the prefix
    is added one time (the new path is exactly as long as the two
    together), and no later step of this module on behalf of the request
    changes the path. *)
Theorem request_path_prefixed_once (self : Request) ops st :
  let req := CTFdRequest_init self in
  let served :=
    (lifecycle_run ThemeLoader_get_source FileSystemLoader_get_source
       ops (req, st)).1 in
  path req = script_root self +:+ path self ∧
  script_root req = script_root self ∧
  String.length (path req) =
    (String.length (script_root self) + String.length (path self))%nat ∧
  path served = script_root self +:+ path self.
Proof.
  intros req served. subst served. rewrite lifecycle_run_request.
  subst req. simpl. rewrite length_append. repeat split.
Qed.

(** ** The version gate *)

Lemma parsed_version_truthy s sv :
  StrictVersion_parse s = Some sv → truthy (PStr s) = true.
Proof. destruct s; [discriminate | reflexivity]. Qed.

(** Line 140 as it is written: the name [run_upgrade] is not bound, the
    lookup raises and nothing is called. *)
Lemma call_run_upgrade_raises st :
  call_run_upgrade st = (Raise (Exn NameError ""), st).
Proof. reflexivity. Qed.

Lemma version_check_parsed st s stored running :
  get_config "ctf_version" st = PStr s →
  StrictVersion_parse s = Some stored →
  StrictVersion_parse __version__ = Some running →
  create_app_version_check st =
  if StrictVersion_lt stored running
  then call_run_upgrade st
  else (Return tt, st).
Proof.
  intros Hcfg Hs Hv.
  unfold create_app_version_check, bind, gets, lift_result, ret.
  rewrite Hcfg, (parsed_version_truthy _ _ Hs).
  unfold StrictVersion_new. rewrite Hs, Hv.
  destruct (StrictVersion_lt stored running); reflexivity.
Qed.

(** A stored version that is not older than the build, the build's own
    version included, changes nothing. *)
Lemma version_check_not_older st s stored running :
  get_config "ctf_version" st = PStr s →
  StrictVersion_parse s = Some stored →
  StrictVersion_parse __version__ = Some running →
  StrictVersion_lt stored running = false →
  create_app_version_check st = (Return tt, st).
Proof.
  intros Hcfg Hs Hv Hlt.
  now rewrite (version_check_parsed _ _ _ _ Hcfg Hs Hv), Hlt.
Qed.

(** With no version stored, [ctf_version] is set to the version of the
    build. *)
Lemma version_check_unset st :
  get_config "ctf_version" st = PNone →
  create_app_version_check st =
  (Return tt, set_config "ctf_version" (PStr __version__) st).
Proof.
  intros Hcfg.
  unfold create_app_version_check, bind, gets, ret, modify. simpl.
  now rewrite Hcfg.
Qed.

(** C6. The stored [ctf_version] is compared with the version of the
    build as strict versions, and a stored version that is older takes
    the branch of line 140.  There the name [run_upgrade], which the
    module does not bind, is evaluated: the gate raises [NameError], no
    upgrade routine is called and the store is left as it was. *)
Theorem version_gate_older_raises_name_error st s stored running :
  get_config "ctf_version" st = PStr s →
  StrictVersion_parse s = Some stored →
  StrictVersion_parse __version__ = Some running →
  StrictVersion_lt stored running = true →
  existsb (String.eqb "run_upgrade") module_globals = false ∧
  create_app_version_check st = (Raise (Exn NameError ""), st) ∧
  upgrade_calls (st_trace (create_app_version_check st).2) =
    upgrade_calls (st_trace st).
Proof.
  intros Hcfg Hs Hv Hlt. split; [reflexivity|].
  rewrite (version_check_parsed _ _ _ _ Hcfg Hs Hv), Hlt.
  rewrite call_run_upgrade_raises. split; reflexivity.
Qed.

(** ** The reverse-proxy wrapper *)

Lemma reverse_proxy_falsy app :
  truthy (default PNone (app_config app !! "REVERSE_PROXY")) = false →
  create_app_reverse_proxy app = Return app.
Proof. intros H. unfold create_app_reverse_proxy. now rewrite H. Qed.

Lemma reverse_proxy_absent app :
  app_config app !! "REVERSE_PROXY" = None →
  create_app_reverse_proxy app = Return app.
Proof. intros H. apply reverse_proxy_falsy. now rewrite H. Qed.

(** A string of hop counts wraps the entry point with those counts. *)
Lemma reverse_proxy_string app s args w :
  app_config app !! "REVERSE_PROXY" = Some (PStr s) →
  s ≠ "" →
  map_result py_int (split_char "," s) = Return args →
  ProxyFix_new (app_wsgi_app app) args = Return w →
  create_app_reverse_proxy app = Return (set_wsgi_app w app).
Proof.
  intros Hcfg Hs Hargs Hw.
  assert (Ht : truthy (PStr s) = true) by (destruct s; [contradiction|reflexivity]).
  unfold create_app_reverse_proxy. rewrite Hcfg. cbv zeta.
  change (default PNone (Some (PStr s))) with (PStr s). rewrite Ht.
  unfold mbind, result_bind. now rewrite Hargs, Hw.
Qed.

(** Any true value that is not a string ends in the [TypeError] of
    unpacking [None]. *)
Lemma reverse_proxy_not_string app v :
  app_config app !! "REVERSE_PROXY" = Some v →
  truthy v = true →
  isinstance_str v = false →
  create_app_reverse_proxy app = Raise (Exn TypeError "").
Proof.
  intros Hcfg Ht Hs. unfold create_app_reverse_proxy.
  rewrite Hcfg. simpl. rewrite Ht.
  destruct v; try discriminate; reflexivity.
Qed.

End Properties.

(** * Instances on concrete inputs *)

Lemma run_result {A : Type} (m : M A) (st : State) (a : A) :
  (m st).1 = Return a → m st = (Return a, (m st).2).
Proof. intros <-. apply surjective_pairing. Qed.

Lemma cache_name_theme_namespacing_witness :
  let load := _load_template example_ThemeLoader example_FileSystemLoader in
  let st := example_state (example_env (Some example_loader) true) ∅ in
  let st1 := set_config "ctf_theme" (PStr "core-beta") st in
  let sa := (load "a.html" None st1).2 in
  let sb := (load "a.html" None (set_config "ctf_theme" (PStr "pixo") sa)).2 in
  (cache_name "a.html" st1).1 = Return "core-beta/a.html" ∧
  ∃ c', env_cache (st_env sb) = Some c' ∧
        c' !! (7%nat, "core-beta/a.html") = Some 0%nat ∧
        c' !! (7%nat, "pixo/a.html") = Some 1%nat.
Proof.
  intros load st st1 sa sb.
  assert (Hne : "core-beta" ≠ "pixo") by discriminate.
  destruct (cache_name_theme_namespacing
              example_ThemeLoader example_FileSystemLoader
              "a.html" "core-beta" "pixo" st Hne) as [_ H].
  change (startswith "a.html" "admin/") with false in H.
  destruct H as (H1 & _ & _ & H4).
  split; [exact H1|].
  apply (H4 example_loader ∅ None None 0%nat 1%nat sa sb).
  - reflexivity.
  - reflexivity.
  - apply run_result. vm_compute. reflexivity.
  - apply run_result. vm_compute. reflexivity.
Defined.

Lemma cached_template_reuse_witness :
  let load := _load_template example_ThemeLoader example_FileSystemLoader in
  let st := example_cached_state false in
  let globals := Some ({[ "user" := PStr "alice" ]} : gmap string pyval) in
  (load "a.html" globals st).1 = Return 0%nat ∧
  st_templates (load "a.html" globals st).2 !! 0%nat =
    Some {| tpl_source := "<p>a</p>";
            tpl_globals := {[ "user" := PStr "alice" ]} ∪ {[ "title" := PStr "CTF" ]};
            tpl_uptodate := false |} ∧
  st_trace (load "a.html" globals st).2 = [].
Proof.
  intros load st globals.
  assert (H1 : env_loader (st_env st) = Some example_loader) by reflexivity.
  assert (H2 : env_cache (st_env st) =
               Some {[ (7%nat, "core-beta/a.html") := 0%nat ]}) by reflexivity.
  assert (H3 : ({[ (7%nat, "core-beta/a.html") := 0%nat ]} : gmap (nat * string) nat)
                 !! (loader_id example_loader,
                     if startswith "a.html" "admin/" then "a.html"
                     else py_str (get_config "ctf_theme" st) +:+ "/" +:+ "a.html")
               = Some 0%nat) by (vm_compute; reflexivity).
  assert (H4 : st_templates st !! 0%nat = Some example_template)
    by (vm_compute; reflexivity).
  destruct (cached_template_reuse
              example_ThemeLoader example_FileSystemLoader
              "a.html" globals st example_loader _ 0%nat example_template
              H1 H2 H3 H4) as [_ H].
  change (negb (env_auto_reload (st_env st)) || tpl_uptodate example_template)
    with true in H.
  destruct H as (Hres & Htpl & _ & _ & Htrace).
  split; [exact Hres|]. split; [exact Htpl | exact Htrace].
Defined.

(** The same lookup with auto-reload on: the stale template is compiled
    again and the new object takes its place in the cache. *)
Example stale_template_reloaded :
  let load := _load_template example_ThemeLoader example_FileSystemLoader in
  let st := example_cached_state true in
  (load "a.html" None st).1 = Return 1%nat ∧
  (env_cache (st_env (load "a.html" None st).2) ≫= (.!! (7%nat, "core-beta/a.html")))
    = Some 1%nat ∧
  st_trace (load "a.html" None st).2 = [CallLoad 7 "a.html"].
Proof. vm_compute. repeat split. Qed.

Lemma cache_miss_loads_original_name_witness :
  let load := _load_template example_ThemeLoader example_FileSystemLoader in
  let st := example_state (example_env (Some example_loader) true)
              {[ "ctf_theme" := PStr "core-beta" ]} in
  st_trace (load "nope.html" None st).2 = [CallLoad 7 "nope.html"] ∧
  (load "nope.html" None st).1 = Raise (Exn TemplateNotFound "nope.html").
Proof.
  intros load st.
  assert (H1 : env_loader (st_env st) = Some example_loader) by reflexivity.
  assert (H2 : cache_hit
                 (loader_id example_loader,
                  if startswith "nope.html" "admin/" then "nope.html"
                  else py_str (get_config "ctf_theme" st) +:+ "/" +:+ "nope.html")
                 st = None) by (vm_compute; reflexivity).
  destruct (cache_miss_loads_original_name
              example_ThemeLoader example_FileSystemLoader
              "nope.html" None st example_loader H1 H2)
    as (Htrace & _ & _ & Hnf).
  split; [exact Htrace|].
  apply (Hnf _ eq_refl).
  repeat constructor; eexists; (split; [vm_compute|]; reflexivity).
Defined.

Lemma no_loader_raises_type_error_witness :
  let st := example_state (example_env None true) ∅ in
  ∃ e, _load_template example_ThemeLoader example_FileSystemLoader
         "index.html" None st = (Raise e, st) ∧
       class_name (exn_cls e) = "TypeError" ∧
       exn_arg e = "no loader for this environment specified".
Proof.
  intros st.
  apply (no_loader_raises_type_error
           example_ThemeLoader example_FileSystemLoader "index.html" None st).
  reflexivity.
Defined.

(** C5, as the specification words it: the exception is not a configuration
    error with the message "no loader specified". *)
Lemma no_loader_not_configuration_error :
  ¬ ∃ e,
      (_load_template example_ThemeLoader example_FileSystemLoader
         "index.html" None (example_state (example_env None true) ∅)).1 = Raise e ∧
      class_name (exn_cls e) = "ConfigurationError" ∧
      exn_arg e = "no loader specified".
Proof.
  intros (e & He & Hcls & Hmsg).
  vm_compute in He. injection He as <-. discriminate Hmsg.
Qed.

Lemma version_gate_older_raises_name_error_witness :
  let st := example_state (example_env (Some example_loader) true)
              {[ "ctf_version" := PStr "3.7.0" ]} in
  create_app_version_check st = (Raise (Exn NameError ""), st).
Proof.
  intros st.
  exact (proj1 (proj2
    (version_gate_older_raises_name_error st "3.7.0"
       {| sv_version := (3, 7, 0); sv_prerelease := None |}
       {| sv_version := (3, 7, 5); sv_prerelease := None |}
       eq_refl eq_refl eq_refl eq_refl))).
Defined.

(** The two other cases of the gate: the version of the build itself
    changes nothing, and an unset version is initialised. *)
Example version_gate_same_version_example :
  let st := example_state (example_env (Some example_loader) true)
              {[ "ctf_version" := PStr "3.7.5" ]} in
  create_app_version_check st = (Return tt, st).
Proof.
  intros st.
  exact (version_check_not_older st "3.7.5"
           {| sv_version := (3, 7, 5); sv_prerelease := None |}
           {| sv_version := (3, 7, 5); sv_prerelease := None |}
           eq_refl eq_refl eq_refl eq_refl).
Qed.

Example version_gate_unset_example :
  let st := example_state (example_env (Some example_loader) true) ∅ in
  create_app_version_check st =
  (Return tt, set_config "ctf_version" (PStr "3.7.5") st).
Proof. intros st. exact (version_check_unset st eq_refl). Qed.

(** C7, at a 4-tuple.  With [REVERSE_PROXY = (1, 1, 0, 0)] the value is
    true and not a string, [proxyfix_args] is [None] and unpacking it
    raises a [TypeError]: the entry point is not wrapped. *)
Theorem reverse_proxy_tuple_type_error :
  create_app_reverse_proxy (example_app (Some (PIntTuple [1; 1; 0; 0])))
  = Raise (Exn TypeError "").
Proof. reflexivity. Qed.

(** The two other forms of [REVERSE_PROXY] behave as described: absent,
    the entry point is left alone; the string "1,1,0,0" wraps it with
    those hop counts. *)
Example reverse_proxy_absent_example :
  create_app_reverse_proxy (example_app None) = Return (example_app None).
Proof. reflexivity. Qed.

Example reverse_proxy_string_example :
  create_app_reverse_proxy (example_app (Some (PStr "1,1,0,0")))
  = Return (set_wsgi_app (ProxyFix FlaskWsgiApp 1 1 0 0 0)
              (example_app (Some (PStr "1,1,0,0")))).
Proof. vm_compute. reflexivity. Qed.

Lemma finalize_none_is_empty_witness :
  let env := SandboxedBaseEnvironment_init (example_app None) example_options in
  env_finalize env PNone = PStr "" ∧
  env_finalize env (PInt 0) = PInt 0 ∧
  render_value env PNone = "".
Proof.
  intros env.
  destruct (finalize_none_is_empty (example_app None) example_options eq_refl)
    as (Hnone & Hother & Hrender & _).
  split; [exact Hnone|]. split; [|exact Hrender].
  apply Hother. discriminate.
Defined.

Lemma cache_name_without_theme_witness :
  let st := example_state (example_env (Some example_loader) true) ∅ in
  cache_name "a.html" st = (Return "None/a.html", st).
Proof.
  intros st.
  exact (proj1 (cache_name_without_theme "a.html" st eq_refl eq_refl)).
Defined.

(** * Further properties of template resolution *)

Section Resolution.

Variable ThemeLoader_get_source : gmap string pyval → string → result string.
Variable FileSystemLoader_get_source : string → string → result string.

Local Abbreviation load_template :=
  (_load_template ThemeLoader_get_source FileSystemLoader_get_source).
Local Abbreviation source_of :=
  (get_source ThemeLoader_get_source FileSystemLoader_get_source).
Local Abbreviation key_of name st :=
  (if startswith name%string "admin/" then name%string
   else py_str (get_config "ctf_theme" st) +:+ "/" +:+ name%string).
Local Abbreviation hit := (load_template_hit ThemeLoader_get_source FileSystemLoader_get_source).
Local Abbreviation miss := (load_template_miss ThemeLoader_get_source FileSystemLoader_get_source).

(** The three ways a call can go. *)
Lemma load_template_cases name globals st :
  (env_loader (st_env st) = None ∧
   load_template name globals st =
   (Raise (Exn TypeError "no loader for this environment specified"), st)) ∨
  (∃ ld r, env_loader (st_env st) = Some ld ∧
           cache_hit (loader_id ld, key_of name st) st = Some r ∧
           load_template name globals st =
           (Return r, if globals_truthy globals
                      then update_globals r globals st else st)) ∨
  (∃ ld, env_loader (st_env st) = Some ld ∧
         cache_hit (loader_id ld, key_of name st) st = None ∧
         load_template name globals st =
         let st1 := log_call (CallLoad (loader_id ld) name) st in
         match source_of (st_config st) (st_dicts st) (loader_chain ld) name with
         | Raise e => (Raise e, st1)
         | Return source =>
             let r := fresh (dom (st_templates st)) in
             let t := {| tpl_source := source;
                         tpl_globals := make_globals (st_env st) globals;
                         tpl_uptodate := true |} in
             (Return r,
              cache_store (loader_id ld, key_of name st) r
                (set_templates (<[r := t]> (st_templates st)) st1))
         end).
Proof.
  destruct (env_loader (st_env st)) as [ld|] eqn:Hld.
  - right.
    destruct (cache_hit (loader_id ld, key_of name st) st) as [r|] eqn:Hhit.
    + left. exists ld, r. repeat split; [exact Hhit|].
      exact (hit name globals st ld r Hld Hhit).
    + right. exists ld. repeat split; [exact Hhit|].
      exact (miss name globals st ld Hld Hhit).
  - left. split; [reflexivity|].
    now apply load_template_no_loader.
Qed.

Lemma cache_store_frame key r st :
  st_config (cache_store key r st) = st_config st ∧
  st_dicts (cache_store key r st) = st_dicts st ∧
  st_templates (cache_store key r st) = st_templates st ∧
  st_trace (cache_store key r st) = st_trace st ∧
  env_loader (st_env (cache_store key r st)) = env_loader (st_env st) ∧
  env_auto_reload (st_env (cache_store key r st)) = env_auto_reload (st_env st) ∧
  env_globals (st_env (cache_store key r st)) = env_globals (st_env st) ∧
  (env_cache (st_env (cache_store key r st)) = None ↔
   env_cache (st_env st) = None).
Proof.
  unfold cache_store. destruct (env_cache (st_env st)) eqn:Hc; simpl;
    rewrite ?Hc; repeat split; congruence.
Qed.

Lemma load_template_unchanged name globals st :
  let st' := (load_template name globals st).2 in
  st_config st' = st_config st ∧
  st_dicts st' = st_dicts st ∧
  env_loader (st_env st') = env_loader (st_env st) ∧
  env_auto_reload (st_env st') = env_auto_reload (st_env st) ∧
  env_globals (st_env st') = env_globals (st_env st) ∧
  (env_cache (st_env st') = None ↔ env_cache (st_env st) = None) ∧
  upgrade_calls (st_trace st') = upgrade_calls (st_trace st).
Proof.
  intros st'. subst st'.
  destruct (load_template_cases name globals st)
    as [[_ ->]|[(ld & r & _ & _ & ->)|(ld & _ & _ & ->)]]; simpl.
  - repeat split; auto.
  - destruct (globals_truthy globals); simpl; repeat split; auto.
  - destruct (source_of _ _ _ _) as [source|e]; simpl.
    + match goal with |- context [cache_store ?k ?r ?s] =>
        destruct (cache_store_frame k r s) as (-> & -> & _ & -> & -> & -> & -> & Hc)
      end.
      simpl. repeat split; try apply Hc.
      unfold upgrade_calls. rewrite List.filter_app, length_app. simpl. lia.
    + repeat split; auto.
      unfold upgrade_calls. rewrite List.filter_app, length_app. simpl. lia.
Qed.

(** X1. Resolving a template never writes the configuration store or the
    override dictionaries, never replaces the loader, never switches
    auto-reload or the cache on or off, and never calls [run_upgrade]. *)
Theorem load_template_frame name globals st :
  let st' := (load_template name globals st).2 in
  st_config st' = st_config st ∧
  st_dicts st' = st_dicts st ∧
  env_loader (st_env st') = env_loader (st_env st) ∧
  env_auto_reload (st_env st') = env_auto_reload (st_env st) ∧
  env_globals (st_env st') = env_globals (st_env st) ∧
  (env_cache (st_env st') = None ↔ env_cache (st_env st) = None) ∧
  upgrade_calls (st_trace st') = upgrade_calls (st_trace st).
Proof. apply load_template_unchanged. Qed.

Lemma update_globals_lookup r globals st r' :
  st_templates (update_globals r globals st) !! r' =
  if decide (r = r') then
    (fun tpl => {| tpl_source := tpl_source tpl;
                   tpl_globals := default ∅ globals ∪ tpl_globals tpl;
                   tpl_uptodate := tpl_uptodate tpl |}) <$> st_templates st !! r
  else st_templates st !! r'.
Proof. unfold update_globals. simpl. apply lookup_alter. Qed.

Lemma update_globals_up_to_date r globals st r' :
  is_up_to_date r' (update_globals r globals st) = is_up_to_date r' st.
Proof.
  unfold is_up_to_date. rewrite update_globals_lookup.
  destruct (decide (r = r')) as [->|]; [|reflexivity].
  now destruct (st_templates st !! r').
Qed.

(** X2. A call changes no compiled template other than the one it
    returns; a call that raises changes none at all. *)
Theorem load_template_touches_only_result name globals st r' :
  (_load_template ThemeLoader_get_source FileSystemLoader_get_source name globals st).1
    ≠ Return r' →
  st_templates
    (_load_template ThemeLoader_get_source FileSystemLoader_get_source name globals st).2
    !! r' = st_templates st !! r'.
Proof.
  destruct (load_template_cases name globals st)
    as [[_ ->]|[(ld & r & _ & _ & ->)|(ld & _ & _ & ->)]]; simpl.
  - reflexivity.
  - intros Hne. assert (r ≠ r') by congruence.
    destruct (globals_truthy globals); [|reflexivity].
    rewrite update_globals_lookup. now destruct (decide (r = r')).
  - destruct (source_of _ _ _ _) as [source|e]; simpl; [|reflexivity].
    intros Hne.
    match goal with |- context [cache_store ?k ?r ?s] =>
      destruct (cache_store_frame k r s) as (_ & _ & -> & _)
    end.
    simpl. apply lookup_insert_ne. congruence.
Qed.

(** X3. Compiled templates are never dropped or recompiled in place: a
    template that is in the heap before a call is still there after it,
    with the same source and the same freshness answer. *)
Theorem load_template_keeps_templates name globals st r t :
  st_templates st !! r = Some t →
  ∃ t', st_templates
          (_load_template ThemeLoader_get_source FileSystemLoader_get_source name globals st).2
          !! r = Some t' ∧
        tpl_source t' = tpl_source t ∧
        tpl_uptodate t' = tpl_uptodate t.
Proof.
  intros Ht.
  destruct (load_template_cases name globals st)
    as [[_ ->]|[(ld & r0 & _ & _ & ->)|(ld & _ & _ & ->)]]; simpl.
  - eauto.
  - destruct (globals_truthy globals); [|eauto].
    rewrite update_globals_lookup.
    destruct (decide (r0 = r)) as [->|]; rewrite ?Ht; simpl; eauto.
  - destruct (source_of _ _ _ _) as [source|e]; simpl; [|eauto].
    match goal with |- context [cache_store ?k ?r ?s] =>
      destruct (cache_store_frame k r s) as (_ & _ & -> & _)
    end.
    simpl. rewrite lookup_insert_ne; [eauto|].
    intros Heq. pose proof (fresh_template_unused st) as Hf.
    rewrite Heq in Hf. congruence.
Qed.

Lemma load_template_keeps_wf name globals st :
  cache_wf st → cache_wf (load_template name globals st).2.
Proof.
  intros Hwf.
  destruct (load_template_cases name globals st)
    as [[_ ->]|[(ld & r0 & _ & _ & ->)|(ld & _ & _ & ->)]]; simpl.
  - exact Hwf.
  - destruct (globals_truthy globals); [|exact Hwf].
    intros c k r Hc Hk. rewrite update_globals_lookup.
    destruct (Hwf c k r Hc Hk) as [t Ht].
    destruct (decide (r0 = r)) as [->|]; rewrite ?Ht; simpl; eauto.
  - destruct (source_of _ _ _ _) as [source|e]; simpl; [|exact Hwf].
    intros c k r. unfold cache_store. simpl.
    destruct (env_cache (st_env st)) as [c0|] eqn:Hc0; simpl.
    + intros [= <-]. rewrite lookup_insert.
      destruct (decide _) as [_|_].
      * intros [= <-]. rewrite lookup_insert_eq. eauto.
      * intros Hk. apply lookup_insert_is_Some'. right.
        exact (Hwf c0 k r Hc0 Hk).
    + rewrite Hc0. discriminate.
Qed.

(** X4. The cache never comes to hold a dangling template: if every
    cached address is live before a call, so it is after. *)
Theorem load_template_cache_wf name globals st :
  cache_wf st → cache_wf (load_template name globals st).2.
Proof. apply load_template_keeps_wf. Qed.

Lemma cache_hit_honoured key st r :
  cache_hit key st = Some r →
  negb (env_auto_reload (st_env st)) || is_up_to_date r st = true.
Proof.
  unfold cache_hit. destruct (env_cache (st_env st)) as [c|]; [|discriminate].
  destruct (c !! key) as [r0|]; [|discriminate].
  destruct (_ || _) eqn:H; [|discriminate]. now intros [= <-].
Qed.

Lemma cache_hit_intro key st c r :
  env_cache (st_env st) = Some c →
  c !! key = Some r →
  negb (env_auto_reload (st_env st)) || is_up_to_date r st = true →
  cache_hit key st = Some r.
Proof. intros Hc Hk Hh. unfold cache_hit. now rewrite Hc, Hk, Hh. Qed.

(** What a successful call establishes: the loader is still there, the
    cache holds the result under the key, the result would be honoured
    by the next lookup, and it is live. *)
Lemma load_template_post name globals st c r st' :
  env_cache (st_env st) = Some c →
  load_template name globals st = (Return r, st') →
  ∃ ld c', env_loader (st_env st') = Some ld ∧
           env_cache (st_env st') = Some c' ∧
           c' !! (loader_id ld, key_of name st) = Some r ∧
           (∀ k, k ≠ (loader_id ld, key_of name st) → c' !! k = c !! k) ∧
           negb (env_auto_reload (st_env st')) || is_up_to_date r st' = true ∧
           (cache_wf st → is_Some (st_templates st' !! r)).
Proof.
  intros Hc Hrun.
  destruct (env_loader (st_env st)) as [ld|] eqn:Hld.
  2:{ rewrite (load_template_no_loader _ _ _ _ _ Hld) in Hrun. discriminate. }
  destruct (load_template_cache _ _ name globals st ld c r st' Hld Hc Hrun)
    as (Hld' & c' & Hc' & Hk & Hother).
  exists ld, c'. repeat split; try assumption.
  - destruct (cache_hit (loader_id ld, key_of name st) st) as [r0|] eqn:Hhit.
    + rewrite (hit _ _ _ _ _ Hld Hhit) in Hrun. injection Hrun as -> <-.
      apply cache_hit_honoured in Hhit.
      destruct (globals_truthy globals); [|exact Hhit].
      now rewrite update_globals_up_to_date.
    + rewrite (miss _ _ _ _ Hld Hhit) in Hrun. simpl in Hrun.
      destruct (source_of _ _ _ _) as [source|e]; [|discriminate].
      injection Hrun as <- <-.
      unfold is_up_to_date.
      match goal with |- context [cache_store ?k ?r ?s] =>
        destruct (cache_store_frame k r s) as (_ & _ & -> & _)
      end.
      simpl. rewrite lookup_insert_eq. apply orb_true_r.
  - intros Hwf.
    pose proof (load_template_keeps_wf name globals st Hwf) as Hwf'.
    rewrite Hrun in Hwf'. exact (Hwf' c' _ r Hc' Hk).
Qed.

(** A lookup that finds an honoured entry returns it. *)
Lemma load_template_again name globals s ld c r :
  env_loader (st_env s) = Some ld →
  env_cache (st_env s) = Some c →
  c !! (loader_id ld, key_of name s) = Some r →
  negb (env_auto_reload (st_env s)) || is_up_to_date r s = true →
  load_template name globals s =
  (Return r, if globals_truthy globals then update_globals r globals s else s).
Proof.
  intros Hld Hc Hk Hh. apply (hit _ _ _ _ _ Hld).
  exact (cache_hit_intro _ _ _ _ Hc Hk Hh).
Qed.

Lemma key_of_config name s1 s2 :
  st_config s1 = st_config s2 → key_of name s1 = key_of name s2.
Proof. intros H. unfold get_config. now rewrite H. Qed.

(** X5. With a cache, resolving the same name again right after a
    successful resolution returns the same template object and does not
    call the loader; with no globals to merge the second call changes
    nothing at all. *)
Theorem repeated_resolution_same_object name globals globals' st c r st' :
  env_cache (st_env st) = Some c →
  load_template name globals st = (Return r, st') →
  load_template name globals' st' =
    (Return r,
     if globals_truthy globals' then update_globals r globals' st' else st') ∧
  st_trace (load_template name globals' st').2 = st_trace st' ∧
  load_template name None st' = (Return r, st').
Proof.
  intros Hc Hrun.
  destruct (load_template_post _ _ _ _ _ _ Hc Hrun)
    as (ld & c' & Hld' & Hc' & Hk & _ & Hh & _).
  pose proof (load_template_unchanged name globals st) as (Hcfg & _).
  rewrite Hrun in Hcfg. simpl in Hcfg.
  rewrite <- (key_of_config name st' st Hcfg) in Hk.
  pose proof (load_template_again name globals' st' ld c' r Hld' Hc' Hk Hh) as H2.
  split; [exact H2|]. split.
  - rewrite H2. simpl. now destruct (globals_truthy globals').
  - exact (load_template_again name None st' ld c' r Hld' Hc' Hk Hh).
Qed.

(** X6. Without a cache every call goes to the loader, exactly once and
    with the given name; the cache stays off, and a template that is
    returned is a new object. *)
Theorem load_template_without_cache name globals st ld :
  env_loader (st_env st) = Some ld →
  env_cache (st_env st) = None →
  let res :=
    (_load_template ThemeLoader_get_source FileSystemLoader_get_source name globals st).1 in
  let st' :=
    (_load_template ThemeLoader_get_source FileSystemLoader_get_source name globals st).2 in
  st_trace st' = (st_trace st ++ [CallLoad (loader_id ld) name])%list ∧
  env_cache (st_env st') = None ∧
  (∀ r, res = Return r → st_templates st !! r = None) ∧
  (∀ e, get_source ThemeLoader_get_source FileSystemLoader_get_source
          (st_config st) (st_dicts st) (loader_chain ld) name = Raise e →
        res = Raise e).
Proof.
  intros Hld Hc res st'. subst res st'.
  assert (Hmiss : cache_hit (loader_id ld, key_of name st) st = None).
  { unfold cache_hit. now rewrite Hc. }
  rewrite (miss _ _ _ _ Hld Hmiss). simpl.
  destruct (source_of _ _ _ _) as [source|e]; simpl.
  - unfold cache_store. simpl. rewrite Hc. simpl. repeat split; [exact Hc| |].
    + intros r [= <-]. apply fresh_template_unused.
    + discriminate.
  - repeat split; [exact Hc|discriminate|]. now intros e' [= <-].
Qed.

(** X7. A cached [admin/] template outlives a change of theme: after a
    successful resolution, whatever [ctf_theme] is set to next, the same
    name resolves to the same template object without calling the
    loader. *)
Theorem admin_template_survives_theme_change name globals globals' st c r st' v :
  startswith name "admin/" = true →
  env_cache (st_env st) = Some c →
  load_template name globals st = (Return r, st') →
  let st'' := set_config "ctf_theme" v st' in
  (load_template name globals' st'').1 = Return r ∧
  st_trace (load_template name globals' st'').2 = st_trace st'.
Proof.
  intros Hadm Hc Hrun st''.
  destruct (load_template_post _ _ _ _ _ _ Hc Hrun)
    as (ld & c' & Hld' & Hc' & Hk & _ & Hh & _).
  rewrite Hadm in Hk.
  assert (Hk'' : c' !! (loader_id ld, key_of name st'') = Some r)
    by now rewrite Hadm.
  rewrite (load_template_again name globals' st'' ld c' r Hld' Hc' Hk'' Hh).
  simpl. split; [reflexivity|]. now destruct (globals_truthy globals').
Qed.

(** X8. A template compiled under one theme is not served under
    another: if the cache has no entry for the name under the second
    theme, resolving it there after a resolution under the first theme
    calls the loader and yields a different object. *)
Theorem theme_switch_compiles_anew name t1 t2 g1 g2 st c r1 r2 sa sb ld :
  startswith name "admin/" = false →
  t1 ≠ t2 →
  cache_wf st →
  env_loader (st_env st) = Some ld →
  env_cache (st_env st) = Some c →
  c !! (loader_id ld, t2 +:+ "/" +:+ name) = None →
  load_template name g1 (set_config "ctf_theme" (PStr t1) st) = (Return r1, sa) →
  load_template name g2 (set_config "ctf_theme" (PStr t2) sa) = (Return r2, sb) →
  r2 ≠ r1 ∧
  st_trace sb = (st_trace sa ++ [CallLoad (loader_id ld) name])%list.
Proof.
  intros Hadm Hne Hwf Hld Hc Hnone Hrun1 Hrun2.
  set (s1 := set_config "ctf_theme" (PStr t1) st) in *.
  assert (Hwf1 : cache_wf s1) by exact Hwf.
  destruct (load_template_post name g1 s1 c r1 sa Hc Hrun1)
    as (ld' & ca & Hlda & Hca & Hk1 & Hother & _ & Hlive).
  destruct (load_template_cache _ _ name g1 s1 ld c r1 sa Hld Hc Hrun1)
    as (Hlda' & _).
  rewrite Hlda in Hlda'. injection Hlda' as ->.
  specialize (Hlive Hwf1). destruct Hlive as [t1' Hlive].
  set (s2 := set_config "ctf_theme" (PStr t2) sa) in *.
  assert (Hkey2 : key_of name s2 = t2 +:+ "/" +:+ name).
  { rewrite Hadm. subst s2. now rewrite get_config_set_config. }
  assert (Hkey1 : key_of name s1 = t1 +:+ "/" +:+ name).
  { rewrite Hadm. subst s1. now rewrite get_config_set_config. }
  assert (Hmiss : cache_hit (loader_id ld, key_of name s2) s2 = None).
  { unfold cache_hit. change (st_env s2) with (st_env sa). rewrite Hca, Hkey2.
    rewrite Hother, Hnone; [reflexivity|].
    rewrite Hkey1. intros [= H]. apply append_inj_l in H. congruence. }
  rewrite (miss name g2 s2 ld Hlda Hmiss) in Hrun2. simpl in Hrun2.
  destruct (source_of _ _ _ _) as [source|e]; [|discriminate].
  injection Hrun2 as <- <-. split.
  - intros Heq. pose proof (fresh_template_unused sa) as Hf.
    rewrite Heq in Hf. congruence.
  - unfold cache_store. simpl. rewrite Hca. reflexivity.
Qed.

End Resolution.

(** * Decimal numerals *)

Lemma digit_val_pretty_N_char (m : N) :
  (m < 10)%N → digit_val (pretty_N_char m) = Some (Z.of_N m).
Proof.
  intros Hm.
  assert (m = 0 ∨ m = 1 ∨ m = 2 ∨ m = 3 ∨ m = 4 ∨ m = 5 ∨ m = 6 ∨ m = 7
          ∨ m = 8 ∨ m = 9)%N as Hcases by lia.
  repeat (destruct Hcases as [->|Hcases]; [reflexivity|]). now subst.
Qed.

Section DigitConsumer.

(** A reader that, on a digit, shifts its accumulator and goes on. *)
Variable R : Type.
Variable f : Z → string → R.
Hypothesis f_digit : ∀ acc c d rest,
  digit_val c = Some d → f acc (String c rest) = f (10 * acc + d) rest.

Lemma consume_pretty_N_go (x : N) :
  ∃ p : Z, ∀ acc s, f acc (pretty_N_go x s) = f (acc * p + Z.of_N x) s.
Proof.
  induction (N.lt_wf_0 x) as [x _ IH].
  assert (x = 0 ∨ 0 < x)%N as [->|Hpos] by lia.
  - exists 1. intros acc s. rewrite pretty_N_go_0. f_equal. lia.
  - destruct (IH (x `div` 10)%N) as [p Hp]; [now apply N.div_lt|].
    exists (10 * p). intros acc s.
    rewrite pretty_N_go_step by exact Hpos. rewrite Hp.
    rewrite (f_digit _ _ (Z.of_N (x `mod` 10)));
      [|apply digit_val_pretty_N_char, N.mod_lt; lia].
    f_equal. rewrite (N.div_mod x 10) at 3 by lia. lia.
Qed.

End DigitConsumer.

Lemma digits_go_digit acc c d rest :
  digit_val c = Some d → digits_go acc (String c rest) = digits_go (10 * acc + d) rest.
Proof. intros H. simpl. now rewrite H. Qed.

Lemma int_digits_digit acc c d rest :
  digit_val c = Some d → int_digits acc (String c rest) = int_digits (10 * acc + d) rest.
Proof. intros H. simpl. now rewrite H. Qed.

Lemma digits_go_stop acc s :
  no_leading_digit s = true → digits_go acc s = (acc, s).
Proof.
  destruct s as [|c s]; [reflexivity|]. simpl.
  now destruct (digit_val c).
Qed.

Lemma digits_go_pretty (x : N) (s : string) :
  no_leading_digit s = true →
  digits_go 0 (pretty_N_go x s) = (Z.of_N x, s).
Proof.
  intros Hs. destruct (consume_pretty_N_go _ digits_go digits_go_digit x) as [p Hp].
  rewrite Hp. simpl. now apply digits_go_stop.
Qed.

Lemma int_digits_pretty (x : N) :
  int_digits 0 (pretty_N_go x "") = Some (Z.of_N x).
Proof.
  destruct (consume_pretty_N_go _ int_digits int_digits_digit x) as [p Hp].
  now rewrite Hp.
Qed.

(** The numeral of a positive number starts with a digit. *)
Lemma pretty_N_go_head (x : N) (s : string) :
  (0 < x)%N →
  ∃ m t, (m < 10)%N ∧ pretty_N_go x s = String (pretty_N_char m) t.
Proof.
  revert s. induction (N.lt_wf_0 x) as [x _ IH]. intros s Hpos.
  rewrite pretty_N_go_step by exact Hpos.
  destruct (N.eq_0_gt_0_cases (x `div` 10)) as [->|Hq].
  - rewrite pretty_N_go_0. exists (x `mod` 10)%N. eexists.
    split; [apply N.mod_lt; lia | reflexivity].
  - apply IH; [now apply N.div_lt | exact Hq].
Qed.

Lemma pretty_N_go_append (x : N) (s rest : string) :
  pretty_N_go x s +:+ rest = pretty_N_go x (s +:+ rest).
Proof.
  revert s. induction (N.lt_wf_0 x) as [x _ IH]. intros s.
  assert (x = 0 ∨ 0 < x)%N as [->|Hpos] by lia.
  - now rewrite !pretty_N_go_0.
  - rewrite (pretty_N_go_step x s), (pretty_N_go_step x (s +:+ rest))
      by exact Hpos.
    rewrite IH by now apply N.div_lt. reflexivity.
Qed.

Lemma take_digits_head (m : N) (t : string) :
  (m < 10)%N →
  take_digits (String (pretty_N_char m) t) =
  Some (digits_go 0 (String (pretty_N_char m) t)).
Proof.
  intros Hm. simpl. now rewrite (digit_val_pretty_N_char m Hm).
Qed.

(** Reading back a printed natural number: [\d+] takes exactly its
    digits. *)
Lemma take_digits_pretty (n : N) (rest : string) :
  no_leading_digit rest = true →
  take_digits (pretty n +:+ rest) = Some (Z.of_N n, rest).
Proof.
  intros Hrest. unfold pretty, pretty_N.
  destruct (decide (n = 0%N)) as [->|Hn].
  - rewrite append_cons, append_nil_l.
    change (take_digits (String "0" rest)) with (Some (digits_go 0 rest)).
    now rewrite (digits_go_stop 0 rest Hrest).
  - rewrite pretty_N_go_append, append_nil_l.
    destruct (pretty_N_go_head n rest) as (m & t & Hm & Heq); [lia|].
    rewrite Heq, (take_digits_head m t Hm), <- Heq.
    now rewrite digits_go_pretty.
Qed.

Lemma py_int_digit_head (m : N) (t : string) :
  (m < 10)%N →
  py_int (String (pretty_N_char m) t) =
  match int_digits 0 (String (pretty_N_char m) t) with
  | Some z => Return z
  | None => Raise (Exn ValueError "")
  end.
Proof.
  intros Hm.
  assert (m = 0 ∨ m = 1 ∨ m = 2 ∨ m = 3 ∨ m = 4 ∨ m = 5 ∨ m = 6 ∨ m = 7
          ∨ m = 8 ∨ m = 9)%N as Hcases by lia.
  repeat (destruct Hcases as [->|Hcases]; [reflexivity|]). now subst.
Qed.

Lemma int_unsigned_digit_head (m : N) (t : string) :
  (m < 10)%N →
  int_unsigned (String (pretty_N_char m) t) =
  int_digits 0 (String (pretty_N_char m) t).
Proof.
  intros Hm. unfold int_unsigned.
  rewrite (int_digits_digit 0 _ _ t (digit_val_pretty_N_char m Hm)).
  rewrite (digit_val_pretty_N_char m Hm). f_equal.
Qed.

Lemma py_int_minus (rest : string) :
  py_int (String "-" rest) =
  match int_unsigned rest with
  | Some z => Return (- z)
  | None => Raise (Exn ValueError "")
  end.
Proof. unfold py_int. simpl. now destruct (int_unsigned rest). Qed.

Lemma py_int_str_int (z : Z) : py_int (py_str (PInt z)) = Return z.
Proof.
  unfold py_str, pretty, pretty_Z. destruct z as [|q|q].
  - reflexivity.
  - unfold pretty, pretty_positive, pretty, pretty_N.
    destruct (decide (N.pos q = 0%N)) as [Hq|_]; [discriminate|].
    destruct (pretty_N_go_head (N.pos q) "") as (m & t & Hm & Heq); [lia|].
    rewrite Heq, (py_int_digit_head m t Hm), <- Heq.
    now rewrite int_digits_pretty.
  - unfold pretty, pretty_positive, pretty, pretty_N.
    destruct (decide (N.pos q = 0%N)) as [Hq|_]; [discriminate|].
    destruct (pretty_N_go_head (N.pos q) "") as (m & t & Hm & Heq); [lia|].
    rewrite append_cons, append_nil_l, py_int_minus.
    rewrite Heq, (int_unsigned_digit_head m t Hm), <- Heq.
    now rewrite int_digits_pretty.
Qed.

(** X13. [int] reads back what [str] prints: for every integer [z],
    [int(str(z))] is [z]. *)
Theorem py_int_pretty (z : Z) : py_int (py_str (PInt z)) = Return z.
Proof. apply py_int_str_int. Qed.

(** * Further properties of the reverse-proxy step *)

Lemma split_char_no_sep (sep : ascii) (s : string) :
  has_char sep s = false → split_char sep s = [s].
Proof.
  induction s as [|c s IH]; simpl; [reflexivity|].
  intros H. apply orb_false_iff in H as [Hc Hs].
  rewrite Hc, (IH Hs). reflexivity.
Qed.

Lemma split_char_sep (sep : ascii) (s1 s2 : string) :
  has_char sep s1 = false →
  split_char sep (s1 +:+ String sep s2) = s1 :: split_char sep s2.
Proof.
  induction s1 as [|c s1 IH]; intros H.
  - rewrite append_nil_l. simpl. now rewrite Ascii.eqb_refl.
  - simpl in H. apply orb_false_iff in H as [Hc Hs].
    rewrite append_cons. simpl. rewrite Hc, (IH Hs). reflexivity.
Qed.

Lemma join_with_cons2 sep x y l :
  join_with sep (x :: y :: l) = x +:+ sep +:+ join_with sep (y :: l).
Proof. reflexivity. Qed.

Lemma split_char_nonempty (sep : ascii) (s : string) : split_char sep s ≠ [].
Proof.
  destruct s as [|c s]; simpl; [discriminate|].
  destruct (Ascii.eqb c sep); [discriminate|].
  destruct (split_char sep s); discriminate.
Qed.

(** Joining the pieces of a split gives the string back. *)
Lemma join_split (sep : ascii) (s : string) :
  join_with (String sep "") (split_char sep s) = s.
Proof.
  induction s as [|c s IH]; [reflexivity|]. simpl.
  pose proof (split_char_nonempty sep s) as Hne.
  destruct (split_char sep s) as [|p ps] eqn:Hs; [contradiction|].
  destruct (Ascii.eqb c sep) eqn:Hc.
  - apply Ascii.eqb_eq in Hc. subst c.
    rewrite join_with_cons2, IH. reflexivity.
  - destruct ps as [|q ps].
    + simpl in IH. simpl. now subst.
    + rewrite join_with_cons2 in IH. rewrite join_with_cons2, append_cons.
      now rewrite IH.
Qed.

Lemma pretty_N_char_not_comma (m : N) : Ascii.eqb (pretty_N_char m) "," = false.
Proof. unfold pretty_N_char. repeat case_match; reflexivity. Qed.

Lemma has_comma_pretty_N_go (x : N) (s : string) :
  has_char "," s = false → has_char "," (pretty_N_go x s) = false.
Proof.
  revert s. induction (N.lt_wf_0 x) as [x _ IH]. intros s Hs.
  destruct (N.eq_0_gt_0_cases x) as [->|Hpos].
  - now rewrite pretty_N_go_0.
  - rewrite pretty_N_go_step by exact Hpos.
    apply IH; [now apply N.div_lt|]. simpl.
    now rewrite pretty_N_char_not_comma, Hs.
Qed.

Lemma has_comma_str_int (z : Z) : has_char "," (py_str (PInt z)) = false.
Proof.
  unfold py_str, pretty, pretty_Z. destruct z as [|q|q]; [reflexivity| |].
  - unfold pretty, pretty_positive, pretty, pretty_N.
    destruct (decide _); [reflexivity|]. now apply has_comma_pretty_N_go.
  - rewrite append_cons, append_nil_l. simpl.
    unfold pretty, pretty_positive, pretty, pretty_N.
    destruct (decide _); [reflexivity|]. now apply has_comma_pretty_N_go.
Qed.

Lemma str_int_nonempty (z : Z) : py_str (PInt z) ≠ "".
Proof.
  intros H. pose proof (py_int_str_int z) as Hp. rewrite H in Hp. discriminate.
Qed.

(** Hop counts written as a comma-separated string are read back as
    they were written. *)
Lemma hop_counts_read_back (zs : list Z) :
  zs ≠ [] →
  map_result py_int
    (split_char "," (join_with "," (map (fun z => py_str (PInt z)) zs))) = Return zs.
Proof.
  induction zs as [|z zs IH]; [contradiction|]. intros _.
  destruct zs as [|z' zs].
  - cbn [map join_with].
    rewrite (split_char_no_sep _ _ (has_comma_str_int z)).
    cbn [map_result]. now rewrite py_int_str_int.
  - cbn [map]. rewrite join_with_cons2.
    rewrite (append_cons "," "" _), append_nil_l.
    rewrite (split_char_sep _ _ _ (has_comma_str_int z)).
    cbn [map_result]. rewrite py_int_str_int.
    cbn [map] in IH. rewrite IH by discriminate. reflexivity.
Qed.

Lemma ProxyFix_new_args (app : wsgi) (args : list Z) :
  ProxyFix_new app args =
  if (length args <=? 5)%nat
  then Return (ProxyFix app (nth 0 args 1) (nth 1 args 1) (nth 2 args 0)
                 (nth 3 args 0) (nth 4 args 0))
  else Raise (Exn TypeError "").
Proof.
  do 6 (destruct args as [|? args]; [reflexivity|]). reflexivity.
Qed.

Lemma join_with_nonempty sep x l : x ≠ "" → join_with sep (x :: l) ≠ "".
Proof.
  intros Hx. destruct l; [exact Hx|]. rewrite join_with_cons2.
  destruct x; [contradiction|]. rewrite append_cons. discriminate.
Qed.

(** X14. Hop counts given as a comma-separated string of integers, at
    most five of them, wrap the entry point once, around the previous
    entry point, with those counts in the order [x_for], [x_proto],
    [x_host], [x_port], [x_prefix]; positions that are not given keep
    the defaults 1, 1, 0, 0, 0, and nothing else of the application
    changes. *)
Theorem reverse_proxy_hop_counts (app : App) (zs : list Z) :
  zs ≠ [] →
  (length zs ≤ 5)%nat →
  app_config app !! "REVERSE_PROXY" =
    Some (PStr (join_with "," (map (fun z => py_str (PInt z)) zs))) →
  create_app_reverse_proxy app =
  Return (set_wsgi_app
            (ProxyFix (app_wsgi_app app) (nth 0 zs 1) (nth 1 zs 1) (nth 2 zs 0)
               (nth 3 zs 0) (nth 4 zs 0)) app).
Proof.
  intros Hne Hlen Hcfg.
  apply (reverse_proxy_string app _ zs _ Hcfg).
  - destruct zs as [|z zs]; [contradiction|].
    apply join_with_nonempty, str_int_nonempty.
  - now apply hop_counts_read_back.
  - rewrite ProxyFix_new_args.
    destruct (length zs <=? 5)%nat eqn:H; [reflexivity|].
    apply Nat.leb_gt in H. lia.
Qed.

(** X15. More than five hop counts are refused: the constructor of the
    wrapper raises a [TypeError] and the entry point stays unwrapped. *)
Theorem reverse_proxy_too_many_hop_counts (app : App) (zs : list Z) :
  (5 < length zs)%nat →
  app_config app !! "REVERSE_PROXY" =
    Some (PStr (join_with "," (map (fun z => py_str (PInt z)) zs))) →
  create_app_reverse_proxy app = Raise (Exn TypeError "").
Proof.
  intros Hlen Hcfg. unfold create_app_reverse_proxy. rewrite Hcfg. cbv zeta.
  change (default PNone (Some (PStr ?s))) with (PStr s).
  destruct zs as [|z zs]; [simpl in Hlen; lia|].
  assert (Ht : truthy (PStr (join_with "," (map (fun z => py_str (PInt z)) (z :: zs)))) = true).
  { pose proof (join_with_nonempty "," (py_str (PInt z))
                  (map (fun z => py_str (PInt z)) zs) (str_int_nonempty z)) as Hj.
    simpl map. destruct (join_with _ _); [contradiction|reflexivity]. }
  rewrite Ht. unfold mbind, result_bind.
  rewrite hop_counts_read_back by discriminate.
  rewrite ProxyFix_new_args.
  destruct (length (z :: zs) <=? 5)%nat eqn:H; [|reflexivity].
  apply Nat.leb_le in H. lia.
Qed.

Lemma py_int_raise (s : string) (e : exn) :
  py_int s = Raise e → e = Exn ValueError "".
Proof.
  unfold py_int.
  destruct (match lstrip s with
            | String "+" rest => int_unsigned rest
            | String "-" rest => Z.opp <$> int_unsigned rest
            | t => int_unsigned t
            end); [discriminate|]. now intros [= <-].
Qed.

Lemma map_result_py_int_raise (l : list string) (piece : string) (e : exn) :
  In piece l → py_int piece = Raise e →
  map_result py_int l = Raise (Exn ValueError "").
Proof.
  intros Hin Hp. induction l as [|x l IH]; [contradiction|]. simpl.
  destruct (py_int x) as [y|e'] eqn:Hx.
  - destruct Hin as [->|Hin]; [congruence|]. now rewrite (IH Hin).
  - now rewrite (py_int_raise _ _ Hx).
Qed.

(** X16. For a string of ASCII characters, one piece that is not an
    integer (an empty piece after a trailing comma, a word, a number
    with a decimal point) makes the step fail with [ValueError]; the
    entry point is not wrapped. *)
Theorem reverse_proxy_malformed_piece (app : App) (s piece : string) (e : exn) :
  app_config app !! "REVERSE_PROXY" = Some (PStr s) →
  is_ascii s = true →
  s ≠ "" →
  In piece (split_char "," s) →
  py_int piece = Raise e →
  create_app_reverse_proxy app = Raise (Exn ValueError "").
Proof.
  intros Hcfg _ Hs Hin Hp. unfold create_app_reverse_proxy. rewrite Hcfg. cbv zeta.
  change (default PNone (Some (PStr s))) with (PStr s).
  assert (Ht : truthy (PStr s) = true) by (destruct s; [contradiction|reflexivity]).
  rewrite Ht. unfold mbind, result_bind.
  now rewrite (map_result_py_int_raise _ _ _ Hin Hp).
Qed.

Lemma set_wsgi_app_same (app : App) : set_wsgi_app (app_wsgi_app app) app = app.
Proof. now destruct app. Qed.

(** X17. When the step succeeds it has changed nothing but the entry
    point: for a false value (absent, [None], the empty string, 0,
    [False], an empty tuple) the application is returned as it was, and
    for a true value, which is then a string, the new entry point is
    one [ProxyFix] around the previous one. *)
Theorem reverse_proxy_success_shape (app app' : App) :
  create_app_reverse_proxy app = Return app' →
  let v := default PNone (app_config app !! "REVERSE_PROXY") in
  app' = set_wsgi_app (app_wsgi_app app') app ∧
  if truthy v then
    isinstance_str v = true ∧
    ∃ a b c d e, app_wsgi_app app' = ProxyFix (app_wsgi_app app) a b c d e
  else app' = app.
Proof.
  unfold create_app_reverse_proxy. cbv zeta.
  destruct (truthy (default PNone (app_config app !! "REVERSE_PROXY"))) eqn:Ht.
  - destruct (default PNone (app_config app !! "REVERSE_PROXY")) as [| | |s|];
      try discriminate.
    unfold mbind, result_bind.
    destruct (map_result py_int (split_char "," s)) as [args|]; [|discriminate].
    rewrite ProxyFix_new_args.
    destruct (length args <=? 5)%nat; [|discriminate].
    intros [= <-]. simpl. split; [reflexivity|]. split; [reflexivity|].
    now eexists _, _, _, _, _.
  - intros [= <-]. split; [|reflexivity]. symmetry. apply set_wsgi_app_same.
Qed.

(** * Further properties of the version gate *)

Lemma ascii_eqb_code (c d : ascii) :
  Ascii.eqb c d = (nat_of_ascii c =? nat_of_ascii d)%nat.
Proof.
  destruct (Ascii.eqb_spec c d) as [->|Hne].
  - now rewrite Nat.eqb_refl.
  - symmetry. apply Nat.eqb_neq. intros H. apply Hne.
    rewrite <- (ascii_nat_embedding c), <- (ascii_nat_embedding d). now rewrite H.
Qed.

Lemma tuple3_eqb_true (a b : Z * Z * Z) : tuple3_eqb a b = true ↔ a = b.
Proof.
  destruct a as [[a1 a2] a3], b as [[b1 b2] b3]. unfold tuple3_eqb.
  rewrite !andb_true_iff, !Z.eqb_eq. split.
  - intros [[-> ->] ->]. reflexivity.
  - intros [= -> -> ->]. auto.
Qed.

Lemma tuple3_ltb_true (a b : Z * Z * Z) : tuple3_ltb a b = true ↔ lex3 a b.
Proof.
  destruct a as [[a1 a2] a3], b as [[b1 b2] b3]. unfold tuple3_ltb, lex3.
  rewrite !orb_true_iff, !andb_true_iff, !orb_true_iff, !andb_true_iff,
    !Z.ltb_lt, !Z.eqb_eq. tauto.
Qed.

Lemma prerelease_ltb_true (p q : ascii * Z) :
  prerelease_ltb p q = true ↔
  lex3 (0, Z.of_nat (nat_of_ascii p.1), p.2) (0, Z.of_nat (nat_of_ascii q.1), q.2).
Proof.
  destruct p as [c n], q as [d m]. unfold prerelease_ltb, lex3. simpl.
  rewrite orb_true_iff, andb_true_iff, ascii_eqb_code, Nat.ltb_lt, Nat.eqb_eq,
    Z.ltb_lt. lia.
Qed.

Lemma prerelease_eqb_true (p q : ascii * Z) :
  prerelease_eqb p q = true ↔
  (Z.of_nat (nat_of_ascii p.1) = Z.of_nat (nat_of_ascii q.1) ∧ p.2 = q.2).
Proof.
  destruct p as [c n], q as [d m]. unfold prerelease_eqb. simpl.
  rewrite andb_true_iff, ascii_eqb_code, Nat.eqb_eq, Z.eqb_eq. lia.
Qed.

(** [<] on strict versions is the lexicographic order of the keys. *)
Lemma StrictVersion_lt_key (a b : StrictVersion) :
  StrictVersion_lt a b = true ↔ key_lt (version_key a) (version_key b).
Proof.
  unfold StrictVersion_lt, StrictVersion_cmp, key_lt, version_key. simpl.
  destruct (tuple3_eqb (sv_version a) (sv_version b)) eqn:He; simpl.
  - apply tuple3_eqb_true in He. rewrite He.
    assert (Hirr : ¬ lex3 (sv_version b) (sv_version b)).
    { destruct (sv_version b) as [[b1 b2] b3]. unfold lex3. lia. }
    destruct (sv_prerelease a) as [[c n]|], (sv_prerelease b) as [[d m]|].
    + destruct (prerelease_eqb (c, n) (d, m)) eqn:Hpe.
      * apply prerelease_eqb_true in Hpe. simpl in Hpe. unfold lex3.
        split; [discriminate|]. intros [?|[_ ?]]; [contradiction|lia].
      * destruct (prerelease_ltb (c, n) (d, m)) eqn:Hpl.
        -- apply prerelease_ltb_true in Hpl. simpl in Hpl.
           split; [intros _; right; split; [reflexivity|exact Hpl] | reflexivity].
        -- split; [discriminate|]. intros [?|[_ Hl]]; [contradiction|].
           apply (prerelease_ltb_true (c, n) (d, m)) in Hl. congruence.
    + split; [intros _; right; split; [reflexivity|unfold lex3; lia] | reflexivity].
    + split; [discriminate|]. intros [?|[_ Hl]]; [contradiction|].
      unfold lex3 in Hl. lia.
    + split; [discriminate|]. intros [?|[_ Hl]]; [contradiction|].
      unfold lex3 in Hl. lia.
  - assert (Hne : sv_version a ≠ sv_version b).
    { intros H. apply tuple3_eqb_true in H. congruence. }
    destruct (tuple3_ltb (sv_version a) (sv_version b)) eqn:Hl.
    + apply tuple3_ltb_true in Hl. split; [now left | reflexivity].
    + split; [discriminate|]. intros [H|[H _]]; [|contradiction].
      apply tuple3_ltb_true in H. congruence.
Qed.

Lemma key_lt_irrefl k : ¬ key_lt k k.
Proof.
  destruct k as [[[a1 a2] a3] [[p1 p2] p3]]. unfold key_lt, lex3. simpl. lia.
Qed.

Lemma key_lt_trans k1 k2 k3 : key_lt k1 k2 → key_lt k2 k3 → key_lt k1 k3.
Proof.
  destruct k1 as [[[a1 a2] a3] [[p1 p2] p3]], k2 as [[[b1 b2] b3] [[q1 q2] q3]],
    k3 as [[[c1 c2] c3] [[r1 r2] r3]].
  unfold key_lt, lex3. simpl.
  intros [H1|[[= -> -> ->] H1]] [H2|[[= -> -> ->] H2]].
  - left. lia.
  - left. lia.
  - left. lia.
  - right. split; [reflexivity|]. lia.
Qed.

(** X18. The comparison used by the gate is a strict order: no version
    is older than itself, two versions are never each older than the
    other, and "older than" is transitive. *)
Theorem StrictVersion_lt_strict_order :
  (∀ a, StrictVersion_lt a a = false) ∧
  (∀ a b, StrictVersion_lt a b = true → StrictVersion_lt b a = false) ∧
  (∀ a b c, StrictVersion_lt a b = true → StrictVersion_lt b c = true →
            StrictVersion_lt a c = true).
Proof.
  split; [|split].
  - intros a. destruct (StrictVersion_lt a a) eqn:H; [|reflexivity].
    apply StrictVersion_lt_key in H. now apply key_lt_irrefl in H.
  - intros a b Hab. destruct (StrictVersion_lt b a) eqn:Hba; [|reflexivity].
    apply StrictVersion_lt_key in Hab, Hba.
    exfalso. exact (key_lt_irrefl _ (key_lt_trans _ _ _ Hab Hba)).
  - intros a b c Hab Hbc. apply StrictVersion_lt_key in Hab, Hbc.
    apply StrictVersion_lt_key. exact (key_lt_trans _ _ _ Hab Hbc).
Qed.

Lemma append_nil_r (s : string) : s +:+ "" = s.
Proof. induction s as [|c s IH]; [reflexivity|]. now rewrite append_cons, IH. Qed.

Lemma take_digits_pretty_end (n : N) :
  take_digits (pretty n) = Some (Z.of_N n, "").
Proof. rewrite <- (append_nil_r (pretty n)). now apply take_digits_pretty. Qed.

Lemma parse_prerelease_tag (tag : ascii) (n : N) :
  tag = "a"%char ∨ tag = "b"%char →
  parse_prerelease (String tag (pretty n)) = Some (Some (tag, Z.of_N n)).
Proof.
  intros Htag. unfold parse_prerelease.
  assert (Hend : at_end (String tag (pretty n)) = false).
  { simpl. destruct (pretty n); [|reflexivity].
    destruct Htag as [->| ->]; reflexivity. }
  rewrite Hend, take_digits_pretty_end.
  destruct Htag as [->| ->]; reflexivity.
Qed.

Lemma parse_printed_tagged (a b c : N) (tag : ascii) (n : N) :
  tag = "a"%char ∨ tag = "b"%char →
  StrictVersion_parse
    (pretty a +:+ "." +:+ pretty b +:+ "." +:+ pretty c +:+ String tag (pretty n)) =
  Some {| sv_version := (Z.of_N a, Z.of_N b, Z.of_N c);
          sv_prerelease := Some (tag, Z.of_N n) |}.
Proof.
  intros Htag.
  assert (Hdot : ∀ r, "." +:+ r = String "." r) by reflexivity.
  unfold StrictVersion_parse. rewrite !Hdot.
  rewrite take_digits_pretty by reflexivity.
  rewrite take_digits_pretty by reflexivity.
  rewrite take_digits_pretty by (destruct Htag as [->| ->]; reflexivity).
  now rewrite (parse_prerelease_tag tag n Htag).
Qed.

(** X19. The version pattern reads back what a version prints as: the
    text "a.b.c" is the version (a, b, c), "a.b" is (a, b, 0), and a
    trailing letter [a] or [b] with a number is the pre-release tag. *)
Theorem StrictVersion_parse_printed (a b c : N) :
  StrictVersion_parse (pretty a +:+ "." +:+ pretty b +:+ "." +:+ pretty c) =
    Some {| sv_version := (Z.of_N a, Z.of_N b, Z.of_N c); sv_prerelease := None |} ∧
  StrictVersion_parse (pretty a +:+ "." +:+ pretty b) =
    Some {| sv_version := (Z.of_N a, Z.of_N b, 0); sv_prerelease := None |} ∧
  ∀ tag n, tag = "a"%char ∨ tag = "b"%char →
    StrictVersion_parse
      (pretty a +:+ "." +:+ pretty b +:+ "." +:+ pretty c +:+ String tag (pretty n)) =
    Some {| sv_version := (Z.of_N a, Z.of_N b, Z.of_N c);
            sv_prerelease := Some (tag, Z.of_N n) |}.
Proof.
  assert (Hdot : ∀ r, "." +:+ r = String "." r) by reflexivity.
  split; [|split].
  - unfold StrictVersion_parse. rewrite !Hdot.
    rewrite take_digits_pretty by reflexivity.
    rewrite take_digits_pretty by reflexivity.
    rewrite take_digits_pretty_end. reflexivity.
  - unfold StrictVersion_parse. rewrite !Hdot.
    rewrite take_digits_pretty by reflexivity.
    rewrite take_digits_pretty_end. reflexivity.
  - intros tag n Htag. now apply parse_printed_tagged.
Qed.

Lemma parse_running_version :
  StrictVersion_parse __version__ =
  Some {| sv_version := (3, 7, 5); sv_prerelease := None |}.
Proof. reflexivity. Qed.

(** X20. A stored value that is true but is not a well-formed version
    (a string that the pattern rejects, or a value that is not a string)
    makes the gate raise, a [ValueError] for a string and a [TypeError]
    otherwise; nothing is written and [run_upgrade] is not called. *)
Theorem version_gate_rejects_malformed st v :
  get_config "ctf_version" st = v →
  truthy v = true →
  (∀ s, v = PStr s → StrictVersion_parse s = None) →
  create_app_version_check st =
  (Raise (Exn (if isinstance_str v then ValueError else TypeError) ""), st).
Proof.
  intros Hcfg Ht Hbad.
  unfold create_app_version_check, bind, gets, lift_result, ret.
  rewrite Hcfg, Ht. unfold StrictVersion_new.
  destruct v as [| | |s|]; try reflexivity.
  now rewrite (Hbad s eq_refl).
Qed.

(** X21. A stored value that is false ([None], the empty string, 0,
    [False]) counts as unset: the gate stores the version of the build,
    without calling [run_upgrade], and running the gate again on the
    result changes nothing. *)
Theorem version_gate_initialises_once st :
  truthy (get_config "ctf_version" st) = false →
  let st1 := set_config "ctf_version" (PStr __version__) st in
  create_app_version_check st = (Return tt, st1) ∧
  st_trace st1 = st_trace st ∧
  create_app_version_check st1 = (Return tt, st1).
Proof.
  intros Ht st1. split; [|split].
  - unfold create_app_version_check, bind, gets, ret, modify.
    now rewrite Ht.
  - reflexivity.
  - apply (version_check_parsed st1 __version__
             {| sv_version := (3, 7, 5); sv_prerelease := None |}
             {| sv_version := (3, 7, 5); sv_prerelease := None |}).
    + subst st1. apply get_config_set_config.
    + reflexivity.
    + reflexivity.
Qed.

(** X23. A stored pre-release of the running build (its version
    followed by [a] or [b] and a number) is older than the build: the
    gate takes the branch of line 140, where the unbound name
    [run_upgrade] raises [NameError]; the store is left as it was. *)
Theorem version_gate_prerelease_is_older st tag (n : N) :
  tag = "a"%char ∨ tag = "b"%char →
  get_config "ctf_version" st = PStr (__version__ +:+ String tag (pretty n)) →
  StrictVersion_lt
    {| sv_version := (3, 7, 5); sv_prerelease := Some (tag, Z.of_N n) |}
    {| sv_version := (3, 7, 5); sv_prerelease := None |} = true ∧
  create_app_version_check st = (Raise (Exn NameError ""), st).
Proof.
  intros Htag Hcfg. split; [reflexivity|].
  assert (Hparse : StrictVersion_parse (__version__ +:+ String tag (pretty n)) =
                   Some {| sv_version := (3, 7, 5);
                           sv_prerelease := Some (tag, Z.of_N n) |}).
  { exact (parse_printed_tagged 3 7 5 tag n Htag). }
  rewrite (version_check_parsed st _ _ _ Hcfg Hparse parse_running_version).
  reflexivity.
Qed.

(** * Further properties of the default theme, the request and the
      environment constructor *)

(** X24. After the default-theme step a theme is configured: a theme
    that was set is kept and the store is untouched, an unset one
    becomes "core-beta"; the step is idempotent, and the cache name of a
    template outside [admin/] is then never the theme-less ["None/"]
    one. *)
Theorem default_theme_configured (st : State) (name : string) :
  let st' := (create_app_default_theme st).2 in
  truthy (get_config "ctf_theme" st') = true ∧
  (if truthy (get_config "ctf_theme" st) then st' = st
   else get_config "ctf_theme" st' = PStr "core-beta" ∧
        cache_name name st' =
        (Return (if startswith name "admin/" then name
                 else "core-beta/" +:+ name), st')) ∧
  create_app_default_theme st' = (Return tt, st') ∧
  get_config "ctf_theme" st' ≠ PNone.
Proof.
  intros st'. subst st'.
  unfold create_app_default_theme, bind, gets, modify, ret.
  destruct (truthy (get_config "ctf_theme" st)) eqn:Ht; simpl.
  - rewrite Ht. simpl. repeat split; try assumption.
    intros H. rewrite H in Ht. discriminate.
  - rewrite get_config_set_config. simpl. repeat split; try discriminate.
    rewrite cache_name_eq, get_config_set_config. reflexivity.
Qed.

Lemma prefix_append (s t : string) : String.prefix s (s +:+ t) = true.
Proof.
  induction s as [|c s IH].
  - rewrite append_nil_l. now destruct t.
  - rewrite append_cons. simpl. destruct (ascii_dec c c); [exact IH|contradiction].
Qed.

(** X25. The path of a constructed request starts with the script root;
    with an empty script root the path is the original one; and the
    rewrite is not idempotent: constructing again from the result would
    add the prefix a second time, except for an empty script root. *)
Theorem request_path_prefix (self : Request) :
  let req := CTFdRequest_init self in
  startswith (path req) (script_root self) = true ∧
  (script_root self = "" → path req = path self) ∧
  (path (CTFdRequest_init req) = path req ↔ script_root self = "").
Proof.
  intros req. subst req. unfold CTFdRequest_init, startswith. simpl.
  split; [apply prefix_append|]. split.
  - intros ->. apply append_nil_l.
  - split.
    + intros H.
      rewrite <- (append_nil_l (script_root self +:+ path self)) in H at 2.
      now apply append_inj_l in H.
    + intros ->. now rewrite !append_nil_l.
Qed.

Section Construction.

Variable ThemeLoader_get_source : gmap string pyval → string → result string.
Variable FileSystemLoader_get_source : string → string → result string.

(** X26. An environment built by the constructor without a [loader]
    option and with cache size 0 uses the loader the application
    provides and has no cache: every resolution calls that loader once,
    with the given name, and never ends in the "no loader" error. *)
Theorem constructed_environment_without_cache app options st name globals :
  opt_loader options = None →
  opt_cache_size options = 0 →
  st_env st = SandboxedBaseEnvironment_init app options →
  let run := _load_template ThemeLoader_get_source FileSystemLoader_get_source
               name globals st in
  st_trace run.2 =
    (st_trace st ++ [CallLoad (loader_id (app_global_jinja_loader app)) name])%list ∧
  env_cache (st_env run.2) = None ∧
  run.1 = match get_source ThemeLoader_get_source FileSystemLoader_get_source
                  (st_config st) (st_dicts st)
                  (loader_chain (app_global_jinja_loader app)) name with
          | Return _ => Return (fresh (dom (st_templates st)))
          | Raise e => Raise e
          end.
Proof.
  intros Hl Hc Henv run. subst run.
  assert (Hld : env_loader (st_env st) = Some (app_global_jinja_loader app)).
  { rewrite Henv. unfold SandboxedBaseEnvironment_init. now rewrite Hl. }
  assert (Hcache : env_cache (st_env st) = None).
  { rewrite Henv. unfold SandboxedBaseEnvironment_init, create_cache. simpl.
    now rewrite Hc. }
  assert (Hmiss : cache_hit
                    (loader_id (app_global_jinja_loader app),
                     if startswith name "admin/" then name
                     else py_str (get_config "ctf_theme" st) +:+ "/" +:+ name)
                    st = None).
  { unfold cache_hit. now rewrite Hcache. }
  rewrite (load_template_miss _ _ name globals st _ Hld Hmiss). simpl.
  destruct (get_source _ _ _ _ _ _) as [source|e]; simpl.
  - unfold cache_store. simpl. rewrite Hcache. simpl. repeat split. exact Hcache.
  - repeat split. exact Hcache.
Qed.

End Construction.

(** * Further instances on concrete inputs *)

Lemma example_cached_state_wf (auto_reload : bool) :
  cache_wf (example_cached_state auto_reload).
Proof.
  intros c k r Hc Hk. simpl in Hc. injection Hc as <-.
  apply lookup_singleton_Some in Hk as [_ <-]. now eexists.
Qed.

Lemma empty_cache_wf (env : Environment) (config : gmap string pyval) :
  env_cache env = Some ∅ → cache_wf (example_state env config).
Proof.
  intros He c k r Hc Hk. simpl in Hc. rewrite He in Hc. injection Hc as <-.
  now rewrite lookup_empty in Hk.
Qed.

Lemma load_template_touches_only_result_witness :
  let load := _load_template example_ThemeLoader example_FileSystemLoader in
  let st := example_cached_state true in
  st_templates (load "a.html" None st).2 !! 0%nat = Some example_template.
Proof.
  intros load st.
  etransitivity.
  - apply (load_template_touches_only_result
             example_ThemeLoader example_FileSystemLoader "a.html" None st 0%nat).
    vm_compute. discriminate.
  - reflexivity.
Defined.

Lemma load_template_keeps_templates_witness :
  let load := _load_template example_ThemeLoader example_FileSystemLoader in
  let st := example_cached_state true in
  ∃ t', st_templates (load "a.html" None st).2 !! 0%nat = Some t' ∧
        tpl_source t' = "<p>a</p>" ∧ tpl_uptodate t' = false.
Proof.
  intros load st.
  exact (load_template_keeps_templates
           example_ThemeLoader example_FileSystemLoader
           "a.html" None st 0%nat example_template eq_refl).
Defined.

Lemma load_template_cache_wf_witness :
  cache_wf
    (_load_template example_ThemeLoader example_FileSystemLoader
       "a.html" None (example_cached_state true)).2.
Proof.
  apply load_template_cache_wf, example_cached_state_wf.
Defined.

Lemma repeated_resolution_same_object_witness :
  let load := _load_template example_ThemeLoader example_FileSystemLoader in
  let st := example_state (example_env (Some example_loader) true)
              {[ "ctf_theme" := PStr "core-beta" ]} in
  let st' := (load "a.html" None st).2 in
  load "a.html" None st' = (Return 0%nat, st').
Proof.
  intros load st st'.
  assert (Hrun : load "a.html" None st = (Return 0%nat, st'))
    by (apply run_result; vm_compute; reflexivity).
  exact (proj2 (proj2 (repeated_resolution_same_object
                         example_ThemeLoader example_FileSystemLoader
                         "a.html" None None st ∅ 0%nat st' eq_refl Hrun))).
Defined.

Lemma load_template_without_cache_witness :
  let load := _load_template example_ThemeLoader example_FileSystemLoader in
  let env := {| env_loader := Some example_loader; env_cache := None;
                env_auto_reload := false; env_globals := ∅;
                env_finalize := default_finalize |} in
  let st := example_state env {[ "ctf_theme" := PStr "core-beta" ]} in
  st_trace (load "a.html" None st).2 = [CallLoad 7 "a.html"] ∧
  env_cache (st_env (load "a.html" None st).2) = None.
Proof.
  intros load env st.
  destruct (load_template_without_cache
              example_ThemeLoader example_FileSystemLoader
              "a.html" None st example_loader eq_refl eq_refl)
    as (Htrace & Hcache & _).
  split; [exact Htrace | exact Hcache].
Defined.

Lemma admin_template_survives_theme_change_witness :
  let load := _load_template example_ThemeLoader example_FileSystemLoader in
  let st := {| st_env := example_env (Some example_loader) true;
               st_config := {[ "ctf_theme" := PStr "core-beta" ]};
               st_dicts := {[ 0%nat := {[ "admin/config.html" := "<h1>config</h1>" ]} ]};
               st_templates := ∅;
               st_trace := [] |} in
  let st' := (load "admin/config.html" None st).2 in
  (load "admin/config.html" None (set_config "ctf_theme" (PStr "pixo") st')).1
  = Return 0%nat.
Proof.
  intros load st st'.
  assert (Hrun : load "admin/config.html" None st = (Return 0%nat, st'))
    by (apply run_result; vm_compute; reflexivity).
  exact (proj1 (admin_template_survives_theme_change
                  example_ThemeLoader example_FileSystemLoader
                  "admin/config.html" None None st ∅ 0%nat st' (PStr "pixo")
                  eq_refl eq_refl Hrun)).
Defined.

Lemma theme_switch_compiles_anew_witness :
  let load := _load_template example_ThemeLoader example_FileSystemLoader in
  let st := example_state (example_env (Some example_loader) true) ∅ in
  let sa := (load "a.html" None (set_config "ctf_theme" (PStr "core-beta") st)).2 in
  let sb := (load "a.html" None (set_config "ctf_theme" (PStr "pixo") sa)).2 in
  st_trace sb = (st_trace sa ++ [CallLoad 7 "a.html"])%list.
Proof.
  intros load st sa sb.
  assert (Hne : "core-beta" ≠ "pixo") by discriminate.
  assert (Hwf : cache_wf st) by (apply empty_cache_wf; reflexivity).
  assert (H1 : load "a.html" None (set_config "ctf_theme" (PStr "core-beta") st)
               = (Return 0%nat, sa))
    by (apply run_result; vm_compute; reflexivity).
  assert (H2 : load "a.html" None (set_config "ctf_theme" (PStr "pixo") sa)
               = (Return 1%nat, sb))
    by (apply run_result; vm_compute; reflexivity).
  exact (proj2 (theme_switch_compiles_anew
                  example_ThemeLoader example_FileSystemLoader
                  "a.html" "core-beta" "pixo" None None st ∅ 0%nat 1%nat sa sb
                  example_loader eq_refl Hne Hwf eq_refl eq_refl eq_refl H1 H2)).
Defined.

Lemma reverse_proxy_hop_counts_witness :
  create_app_reverse_proxy (example_app (Some (PStr "2,1")))
  = Return (set_wsgi_app (ProxyFix FlaskWsgiApp 2 1 0 0 0)
              (example_app (Some (PStr "2,1")))).
Proof.
  apply (reverse_proxy_hop_counts (example_app (Some (PStr "2,1"))) [2; 1]).
  - discriminate.
  - simpl. lia.
  - vm_compute. reflexivity.
Defined.

Lemma reverse_proxy_too_many_hop_counts_witness :
  create_app_reverse_proxy (example_app (Some (PStr "1,1,1,1,1,1")))
  = Raise (Exn TypeError "").
Proof.
  apply (reverse_proxy_too_many_hop_counts
           (example_app (Some (PStr "1,1,1,1,1,1"))) [1; 1; 1; 1; 1; 1]).
  - simpl. lia.
  - vm_compute. reflexivity.
Defined.

Lemma reverse_proxy_malformed_piece_witness :
  create_app_reverse_proxy (example_app (Some (PStr "1,1,")))
  = Raise (Exn ValueError "").
Proof.
  apply (reverse_proxy_malformed_piece
           (example_app (Some (PStr "1,1,"))) "1,1," "" (Exn ValueError "")).
  - vm_compute. reflexivity.
  - reflexivity.
  - discriminate.
  - vm_compute. auto.
  - reflexivity.
Defined.

Lemma reverse_proxy_success_shape_witness :
  let app := example_app (Some (PStr "1,1,0,0")) in
  let app' := set_wsgi_app (ProxyFix FlaskWsgiApp 1 1 0 0 0) app in
  app' = set_wsgi_app (app_wsgi_app app') app.
Proof.
  intros app app'.
  assert (H : create_app_reverse_proxy app = Return app')
    by (vm_compute; reflexivity).
  exact (proj1 (reverse_proxy_success_shape app app' H)).
Defined.

Lemma StrictVersion_lt_strict_order_witness :
  let v370 := {| sv_version := (3, 7, 0); sv_prerelease := None |} in
  let v375b1 := {| sv_version := (3, 7, 5); sv_prerelease := Some ("b"%char, 1) |} in
  let v375 := {| sv_version := (3, 7, 5); sv_prerelease := None |} in
  StrictVersion_lt v370 v375 = true ∧ StrictVersion_lt v375 v375b1 = false.
Proof.
  intros v370 v375b1 v375.
  destruct StrictVersion_lt_strict_order as (_ & Hasym & Htrans).
  split.
  - apply (Htrans v370 v375b1 v375); reflexivity.
  - apply (Hasym v375b1 v375). reflexivity.
Defined.

Lemma StrictVersion_parse_printed_witness :
  StrictVersion_parse "3.7.5b2" =
  Some {| sv_version := (3, 7, 5); sv_prerelease := Some ("b"%char, 2) |}.
Proof.
  destruct (StrictVersion_parse_printed 3 7 5) as (_ & _ & H).
  apply (H "b"%char 2%N). now right.
Defined.

Lemma version_gate_rejects_malformed_witness :
  let st := example_state (example_env (Some example_loader) true)
              {[ "ctf_version" := PStr "v3" ]} in
  create_app_version_check st
  = (Raise (Exn ValueError ""), st).
Proof.
  intros st.
  apply (version_gate_rejects_malformed st (PStr "v3")).
  - reflexivity.
  - reflexivity.
  - intros s [= <-]. reflexivity.
Defined.

Lemma version_gate_initialises_once_witness :
  let st := example_state (example_env (Some example_loader) true)
              {[ "ctf_version" := PStr "" ]} in
  let st1 := set_config "ctf_version" (PStr "3.7.5") st in
  create_app_version_check st = (Return tt, st1) ∧
  create_app_version_check st1 = (Return tt, st1).
Proof.
  intros st st1.
  destruct (version_gate_initialises_once st eq_refl)
    as (H1 & _ & H2).
  split; [exact H1 | exact H2].
Defined.

Lemma version_gate_prerelease_is_older_witness :
  let st := example_state (example_env (Some example_loader) true)
              {[ "ctf_version" := PStr "3.7.5b1" ]} in
  create_app_version_check st = (Raise (Exn NameError ""), st).
Proof.
  intros st.
  apply (version_gate_prerelease_is_older st "b"%char 1%N).
  - now right.
  - vm_compute. reflexivity.
Defined.

Lemma request_path_prefix_witness :
  startswith (path (CTFdRequest_init example_request)) "/ctf" = true ∧
  path (CTFdRequest_init {| script_root := ""; path := "/challenges" |})
  = "/challenges".
Proof.
  split.
  - exact (proj1 (request_path_prefix example_request)).
  - apply (proj1 (proj2 (request_path_prefix
                           {| script_root := ""; path := "/challenges" |}))).
    reflexivity.
Defined.

Lemma constructed_environment_without_cache_witness :
  let options := {| opt_loader := None; opt_finalize := None;
                    opt_cache_size := 0; opt_auto_reload := true;
                    opt_globals := ∅ |} in
  let st := example_state
              (SandboxedBaseEnvironment_init (example_app None) options)
              {[ "ctf_theme" := PStr "core-beta" ]} in
  st_trace (_load_template example_ThemeLoader example_FileSystemLoader
              "a.html" None st).2 = [CallLoad 7 "a.html"].
Proof.
  intros options st.
  exact (proj1 (constructed_environment_without_cache
                  example_ThemeLoader example_FileSystemLoader
                  (example_app None) options st "a.html" None
                  eq_refl eq_refl eq_refl)).
Defined.

Lemma load_template_frame_witness :
  let run := _load_template example_ThemeLoader example_FileSystemLoader
               "a.html" None (example_cached_state true) in
  st_config run.2 = st_config (example_cached_state true) ∧
  st_dicts run.2 = st_dicts (example_cached_state true) ∧
  upgrade_calls (st_trace run.2) = 0%nat.
Proof.
  intros run.
  destruct (load_template_frame example_ThemeLoader example_FileSystemLoader
              "a.html" None (example_cached_state true))
    as (Hcfg & Hdicts & _ & _ & _ & _ & Hup).
  split; [exact Hcfg|]. split; [exact Hdicts | exact Hup].
Defined.

Lemma default_theme_configured_witness :
  let st := example_state (example_env (Some example_loader) true) ∅ in
  let st' := (create_app_default_theme st).2 in
  get_config "ctf_theme" st' = PStr "core-beta" ∧
  cache_name "a.html" st' = (Return "core-beta/a.html", st').
Proof.
  intros st st'.
  destruct (default_theme_configured st "a.html") as (_ & H & _).
  exact H.
Defined.
